(** * drone-kaniko: registry bootstrap and credential configuration

    A shallow embedding of the two plugin entry points of the repository,
    the ECR plugin ([createDockerConfig], [createRepository],
    [uploadLifeCyclePolicy], [uploadRepositoryPolicy], [isRegistryPublic],
    [run]) and the GCR plugin ([setupGCRAuth], [run]), together with the
    properties their specification states about them.

    The Go code is sequential and effectful: it sets process environment
    variables, writes files, calls the AWS SDK and finally hands over to
    the kaniko executor.  It is embedded in a state monad over a [World]
    that holds the environment, the file system, the history of the calls
    that left the process, and the behaviour of everything outside the
    process (which call fails, and how). *)

From Stdlib Require Import String Ascii ZArith List.
From stdpp Require Import base option gmap strings list pretty.

Local Open Scope string_scope.
Local Open Scope list_scope.

(** ** Go values: errors *)

Module Go.

(** The dynamic types of the [error] values the plugins see.  A nil
    error is [None : option error]. *)
Inductive error : Type :=
| errorString (msg : string)             (* fmt.Errorf, errors.New *)
| SyscallError (call errno : string)      (* os.NewSyscallError *)
| PathError (op path errno : string)      (* *fs.PathError *)
| APIError (code message : string)        (* implements smithy.APIError *)
| ExitError (code : Z)                    (* *exec.ExitError: has ExitCode *)
| wrapped (msg : string) (cause : error). (* errors.Wrap, smithy.OperationError: has Unwrap *)

Definition fmt_Errorf (msg : string) : error := errorString msg.

(** [errors.Wrap(err, msg)] of github.com/pkg/errors: nil stays nil. *)
Definition errors_Wrap (err : option error) (msg : string) : option error :=
  match err with
  | None => None
  | Some e => Some (wrapped msg e)
  end.

(** [errors.As(err, &apiError)] for [var apiError smithy.APIError]: the
    first error of the Unwrap chain that implements the interface. *)
Fixpoint As_APIError (e : error) : option (string * string) :=
  match e with
  | APIError code message => Some (code, message)
  | wrapped _ cause => As_APIError cause
  | errorString _ | SyscallError _ _ | PathError _ _ _ | ExitError _ => None
  end.

Definition errors_As_APIError (err : option error) : option (string * string) :=
  match err with
  | None => None
  | Some e => As_APIError e
  end.

(** [err.Error()] *)
Fixpoint Error (e : error) : string :=
  match e with
  | errorString msg => msg
  | SyscallError call errno => call +:+ ": " +:+ errno
  | PathError op path errno => op +:+ " " +:+ path +:+ ": " +:+ errno
  | APIError code message => "api error " +:+ code +:+ ": " +:+ message
  | ExitError code => "exit status " +:+ pretty code
  | wrapped msg cause => msg +:+ ": " +:+ Error cause
  end.

(** [apiError.ErrorCode()] *)
Definition ErrorCode (apiError : string * string) : string := fst apiError.

(** [strings.HasPrefix(s, prefix)] *)
Definition strings_HasPrefix (s prefix : string) : bool := String.prefix prefix s.

(** [fmt.Sprintf("%s/%s", a, b)] *)
Definition Sprintf_slash (a b : string) : string := a +:+ "/" +:+ b.

(** Whether the byte [b] occurs in [s]. *)
Fixpoint has_byte (b : ascii) (s : string) : bool :=
  match s with
  | EmptyString => false
  | String c s' => if Ascii.eqb c b then true else has_byte b s'
  end.

End Go.
Export Go.

(** ** The kaniko plugin descriptor handed to the executor *)

Module artifact.
Inductive RegistryType : Type := ECR | GCR.
End artifact.

Module kaniko.

Record Build : Type := {
  DroneCommitRef : string;
  DroneRepoBranch : string;
  Dockerfile : string;
  Context : string;
  Tags : list string;
  AutoTag : bool;
  AutoTagSuffix : string;
  ExpandTag : bool;
  Args : list string;
  Target : string;
  Repo : string;
  Mirrors : list string;
  Labels : list string;
  SnapshotMode : string;
  EnableCache : bool;
  CacheDir : string;
  CacheCopyLayers : bool;
  CacheNoCompress : bool;
  CacheRepo : string;
  CacheTTL : Z;
  DigestFile : string;
  NoPush : bool;
  Verbosity : string;
  UseNewRun : bool;
  Platform : string
}.

Record Artifact : Type := {
  ArtifactTags : list string;
  ArtifactRepo : string;
  Registry : string;
  ArtifactFile : string;
  RegistryType : artifact.RegistryType
}.

Record Plugin : Type := {
  PluginBuild : Build;
  PluginArtifact : Artifact
}.

End kaniko.

(** ** The world outside the function bodies *)

(** A call that leaves the process: a file write, an AWS SDK operation,
    or the hand-over to the kaniko executor ([plugin.Exec()]). *)
Inductive Call : Type :=
| WriteFile (path data : string)
| LoadDefaultConfig (region : string)
| ecr_CreateRepository (region repositoryName : string)
| ecrpublic_CreateRepository (region repositoryName : string)
| ecr_PutLifecyclePolicy (region repositoryName lifecyclePolicyText : string)
| ecr_SetRepositoryPolicy (region repositoryName policyText : string)
| ecrpublic_SetRepositoryPolicy (region repositoryName policyText : string)
| Exec (plugin : kaniko.Plugin).

(** The two API families of the registry service. *)
Inductive Backend : Type := Private | Public.

(** The API family a call belongs to (the SDK package that serves it). *)
Definition backend_of (c : Call) : option Backend :=
  match c with
  | ecr_CreateRepository _ _ | ecr_PutLifecyclePolicy _ _ _
  | ecr_SetRepositoryPolicy _ _ _ => Some Private
  | ecrpublic_CreateRepository _ _ | ecrpublic_SetRepositoryPolicy _ _ _ => Some Public
  | WriteFile _ _ | LoadDefaultConfig _ | Exec _ => None
  end.

(** A call that goes over the network (the AWS SDK operations). *)
Definition is_network (c : Call) : bool :=
  match c with
  | WriteFile _ _ | LoadDefaultConfig _ | Exec _ => false
  | _ => true
  end.

Definition is_Exec (c : Call) : bool :=
  match c with
  | Exec _ => true
  | _ => false
  end.

Definition is_WriteFile (c : Call) : bool :=
  match c with
  | WriteFile _ _ => true
  | _ => false
  end.

(** How often the executor was invoked in a history. *)
Fixpoint executions (h : list Call) : nat :=
  match h with
  | [] => 0
  | c :: h' => (if is_Exec c then 1 else 0) + executions h'
  end.

(** [respond h c] is the error (or nil) with which the outside world
    answers the call [c] after the calls [h]. *)
Record World : Type := mkWorld {
  environ : gmap string string;
  files : gmap string string;
  history : list Call;
  respond : list Call -> Call -> option error
}.

Definition set_environ (f : gmap string string -> gmap string string) (w : World) : World :=
  mkWorld (f (environ w)) (files w) (history w) (respond w).

Definition set_files (f : gmap string string -> gmap string string) (w : World) : World :=
  mkWorld (environ w) (f (files w)) (history w) (respond w).

Definition record_call (c : Call) (w : World) : World :=
  mkWorld (environ w) (files w) (history w ++ [c]) (respond w).

(** ** The monad of the plugin code *)

(** A computation either yields a value or ends the process through
    [logrus.Fatal] (which logs and exits with status 1). *)
Inductive Res (A : Type) : Type :=
| Val (a : A)
| Fatal (msg : string).
Arguments Val {A} a.
Arguments Fatal {A} msg.

Definition M (A : Type) : Type := World -> Res A * World.

Definition ret {A : Type} (a : A) : M A := λ w, (Val a, w).

Definition bind {A B : Type} (m : M A) (f : A -> M B) : M B := λ w,
  match m w with
  | (Val a, w') => f a w'
  | (Fatal msg, w') => (Fatal msg, w')
  end.

Declare Scope M_scope.
Delimit Scope M_scope with M.
Notation "x ← m ; k" := (bind m (λ x, k))
  (at level 20, m at level 100, k at level 200, only parsing) : M_scope.
Notation "' x ← m ; k" := (bind m (λ x, k))
  (at level 20, x pattern, m at level 100, k at level 200, only parsing) : M_scope.
Local Open Scope M_scope.

Definition logrus_Fatal {A : Type} (msg : string) : M A := λ w, (Fatal msg, w).

(** Performs the call [c]: the world answers and the call is recorded.
    What the callee does on its own to files and environment (the kaniko
    executor writes the digest and artifact files, for one) is not
    followed: [files] and [environ] are those the plugin code itself
    reads and writes. *)
Definition invoke (c : Call) : M (option error) := λ w,
  (Val (respond w (history w) c), record_call c w).

(** [os.Setenv]: EINVAL for an empty key, a key with '=' or NUL, or a
    value with NUL; otherwise the variable is set. *)
Definition os_Setenv (key value : string) : M (option error) := λ w,
  if decide (key = "") then (Val (Some (SyscallError "setenv" "EINVAL")), w)
  else if has_byte "="%char key || has_byte Ascii.zero key || has_byte Ascii.zero value
  then (Val (Some (SyscallError "setenv" "EINVAL")), w)
  else (Val None, set_environ (insert key value) w).

(** Replaces the content of the file at [path] by [data]. *)
Definition store_file (path data : string) : M unit := λ w,
  (Val tt, set_files (insert path data) w).

(** [ioutil.WriteFile(path, data, 0644)]: the world decides whether the
    write fails; on success the file holds exactly [data].  The real
    call truncates the file when it opens it, so a write that fails after
    the open can leave the file empty; the file system of the model does
    not follow that, it keeps the old content of a file whose write
    failed. *)
Definition ioutil_WriteFile (path data : string) : M (option error) :=
  err ← invoke (WriteFile path data);
  match err with
  | Some e => ret (Some e)
  | None => _ ← store_file path data; ret None
  end.

(** [ioutil.ReadFile(path)]: the content of the file, or the error of a
    missing file. *)
Definition ioutil_ReadFile (path : string) : M (string * option error) := λ w,
  match files w !! path with
  | Some data => (Val (data, None), w)
  | None => (Val ("", Some (PathError "open" path "ENOENT")), w)
  end.

(** ** The command-line library (github.com/urfave/cli) *)

Module cli.

(** What [App.Run(os.Args)] makes of the arguments and of the
    environment variables bound to the flags. *)
Inductive Invocation (Context : Type) : Type :=
| ShowHelp                      (* --help, -h, help: prints the help, returns nil *)
| ShowVersion                   (* --version, -v: prints the version, returns nil *)
| IncorrectUsage (err : error)  (* the flags do not parse: returns the error *)
| Action (c : Context).         (* calls app.Action with the parsed flags *)
Arguments ShowHelp {Context}.
Arguments ShowVersion {Context}.
Arguments IncorrectUsage {Context} err.
Arguments Action {Context} c.

(** [err.(ExitCoder)]: the exit code of an error that has one.  The
    assertion is on the error itself, not on its Unwrap chain. *)
Definition ExitCode (err : error) : option Z :=
  match err with
  | ExitError code => Some code
  | _ => None
  end.

(** [App.Run] returns an error (or nil) to [main], or the process exits
    inside it. *)
Inductive Outcome : Type :=
| Returned (err : option error)
| Exited (code : Z).

(** [App.Run(os.Args)]: after the action [HandleExitCoder] ends the
    process with the code of an error that carries one; an action that
    reaches [logrus.Fatal] has ended it with status 1. *)
Definition App_Run {Context : Type} (action : Context → M (option error))
    (i : Invocation Context) (w : World) : Outcome * World :=
  match i with
  | ShowHelp | ShowVersion => (Returned None, w)
  | IncorrectUsage err => (Returned (Some err), w)
  | Action c =>
      match action c w with
      | (Val None, w') => (Returned None, w')
      | (Val (Some err), w') =>
          match ExitCode err with
          | Some code => (Exited code, w')
          | None => (Returned (Some err), w')
          end
      | (Fatal _, w') => (Exited 1, w')
      end
  end.

(** [os.Getenv] *)
Definition os_Getenv (key : string) (w : World) : string :=
  default "" (environ w !! key).

End cli.

(** ** The credential document (package pkg/docker) *)

Module docker.

(** Modelled from the spec: the credential descriptor of pkg/docker,
    which is not among the sources: "either (a) static username/password,
    or (b) a named external credential-helper binding". *)
Inductive Descriptor : Type :=
| Auth (username password : string)
| CredHelper (helper : string).

(** Modelled from the spec: [docker.Config], "a mapping from registry host
    to credential descriptor ... at most one descriptor per host; later
    writes overwrite earlier ones for the same host". *)
Abbreviation Config := (gmap string Descriptor).

(** Modelled from the spec: [docker.NewConfig()], "constructed fresh per
    invocation". *)
Definition NewConfig : Config := ∅.

(** Modelled from the spec: [Config.SetAuth], the static
    username/password binding of a host. *)
Definition SetAuth (registry username password : string) (c : Config) : Config :=
  <[registry := Auth username password]> c.

(** Modelled from the spec: [Config.SetCredHelper], the binding of a
    host to a named external credential helper. *)
Definition SetCredHelper (registry helper : string) (c : Config) : Config :=
  <[registry := CredHelper helper]> c.


End docker.

(** ** The ECR plugin (package main of cmd/kaniko-ecr) *)

Module ecr.

Definition accessKeyEnv : string := "AWS_ACCESS_KEY_ID".
Definition secretKeyEnv : string := "AWS_SECRET_ACCESS_KEY".
Definition dockerConfigPath : string := "/kaniko/.docker/config.json".
Definition ecrPublicDomain : string := "public.ecr.aws".
Definition defaultDigestFile : string := "/kaniko/digest-file".

(** The flags of [cli.Context] that [run] reads.  A flag read through
    [c.IsSet] is an [option]: [None] when it is not set. *)
Record Context : Type := {
  dockerfile : string;
  docker_username : string;
  docker_password : string;
  context : string;
  drone_commit_ref : string;
  drone_repo_branch : string;
  tags : list string;
  expand_tag : bool;
  auto_tag : bool;
  auto_tag_suffix : string;
  args : list string;
  target : string;
  repo : string;
  create_repository : bool;
  region : string;
  custom_labels : list string;
  registry : string;
  registry_mirrors : list string;
  access_key : string;
  secret_key : string;
  snapshot_mode : string;
  lifecycle_policy : option string;
  repository_policy : option string;
  enable_cache : bool;
  cache_dir : string;
  cache_copy_layers : bool;
  cache_no_compress : bool;
  cache_repo : string;
  cache_ttl : Z;
  artifact_file : string;
  no_push : bool;
  verbosity : string;
  use_new_run : bool;
  platform : string
}.

(** [aws.Config] as far as the plugin uses it: the region it was loaded
    with. *)
Definition aws_Config : Type := string.

(** [config.LoadDefaultConfig(context.TODO(), config.WithRegion(region))] *)
Definition config_LoadDefaultConfig (region : string) : M (aws_Config * option error) :=
  err ← invoke (LoadDefaultConfig region);
  ret (region, err).

Definition isRegistryPublic (registry : string) : bool :=
  strings_HasPrefix registry ecrPublicDomain.

Section WithDockerPackage.

(** [docker.RegistryV1], the key of the default registry entry; the
    constant is declared in pkg/docker. *)
Variable RegistryV1 : string.

(** [json.Marshal] at [*docker.Config]; the JSON layout of the document
    is declared in pkg/docker. *)
Variable json_Marshal : option docker.Config -> string * option error.

(** [godotenv.Load(filename)], which reads variables from a file into the
    environment, and the parsing of [os.Args] and of the flags'
    environment variables by [App.Run]; both belong to libraries. *)
Variable godotenv_Load : string -> M (option error).
Variable parse_args : World -> cli.Invocation Context.

Definition createDockerConfig
    (dockerUsername dockerPassword accessKey secretKey registry : string) (noPush : bool)
  : M (option docker.Config * option error) :=
  let dockerConfig := docker.NewConfig in
  let dockerConfig :=
    if decide (dockerUsername ≠ "")
    then docker.SetAuth RegistryV1 dockerUsername dockerPassword dockerConfig
    else dockerConfig in
  (* only setup auth when pushing or credentials are defined *)
  if negb noPush || bool_decide (accessKey ≠ "") then
    if decide (registry = "") then
      ret (None, Some (fmt_Errorf "registry must be specified"))
    else
      (* If IAM role is used, access key & secret key are not required *)
      err ← (if bool_decide (accessKey ≠ "") && bool_decide (secretKey ≠ "") then
               err ← os_Setenv accessKeyEnv accessKey;
               match err with
               | Some _ =>
                   ret (errors_Wrap err "failed to set AWS_ACCESS_KEY_ID environment variable")
               | None =>
                   err ← os_Setenv secretKeyEnv secretKey;
                   match err with
                   | Some _ =>
                       ret (errors_Wrap err
                              "failed to set AWS_SECRET_ACCESS_KEY environment variable")
                   | None => ret None
                   end
               end
             else ret None);
      match err with
      | Some _ => ret (None, err)
      | None =>
          let dockerConfig := docker.SetCredHelper ecrPublicDomain "ecr-login" dockerConfig in
          let dockerConfig := docker.SetCredHelper registry "ecr-login" dockerConfig in
          ret (Some dockerConfig, None)
      end
  else ret (Some dockerConfig, None).

Definition createRepository (region repo registry : string) : M (option error) :=
  if decide (registry = "") then ret (Some (fmt_Errorf "registry must be specified"))
  else if decide (repo = "") then ret (Some (fmt_Errorf "repo must be specified"))
  else
    '(cfg, err) ← config_LoadDefaultConfig region;
    match err with
    | Some _ => ret (errors_Wrap err "failed to load aws config")
    | None =>
        createErr ←
          (if isRegistryPublic registry
           then invoke (ecrpublic_CreateRepository cfg repo) (* create public repo *)
           else invoke (ecr_CreateRepository cfg repo));     (* create private repo *)
        match errors_As_APIError createErr with
        | Some apiError =>
            if decide (ErrorCode apiError ≠ "RepositoryAlreadyExistsException")
            then ret (errors_Wrap createErr "failed to create repository")
            else ret None
        | None => ret None
        end
    end.

Definition uploadLifeCyclePolicy (region repo lifecyclePolicy : string) : M (option error) :=
  '(cfg, err) ← config_LoadDefaultConfig region;
  match err with
  | Some _ => ret (errors_Wrap err "failed to load aws config")
  | None => invoke (ecr_PutLifecyclePolicy cfg repo lifecyclePolicy)
  end.

Definition uploadRepositoryPolicy (region repo registry repositoryPolicy : string)
  : M (option error) :=
  '(cfg, err) ← config_LoadDefaultConfig region;
  match err with
  | Some _ => ret (errors_Wrap err "failed to load aws config")
  | None =>
      if isRegistryPublic registry
      then invoke (ecrpublic_SetRepositoryPolicy cfg repo repositoryPolicy)
      else invoke (ecr_SetRepositoryPolicy cfg repo repositoryPolicy)
  end.

(** The descriptor [run] hands to the executor. *)
Definition plugin_of (c : Context) : kaniko.Plugin :=
  {| kaniko.PluginBuild :=
       {| kaniko.DroneCommitRef := drone_commit_ref c;
          kaniko.DroneRepoBranch := drone_repo_branch c;
          kaniko.Dockerfile := dockerfile c;
          kaniko.Context := context c;
          kaniko.Tags := tags c;
          kaniko.AutoTag := auto_tag c;
          kaniko.AutoTagSuffix := auto_tag_suffix c;
          kaniko.ExpandTag := expand_tag c;
          kaniko.Args := args c;
          kaniko.Target := target c;
          kaniko.Repo := Sprintf_slash (registry c) (repo c);
          kaniko.Mirrors := registry_mirrors c;
          kaniko.Labels := custom_labels c;
          kaniko.SnapshotMode := snapshot_mode c;
          kaniko.EnableCache := enable_cache c;
          kaniko.CacheDir := cache_dir c;
          kaniko.CacheCopyLayers := cache_copy_layers c;
          kaniko.CacheNoCompress := cache_no_compress c;
          kaniko.CacheRepo := Sprintf_slash (registry c) (cache_repo c);
          kaniko.CacheTTL := cache_ttl c;
          kaniko.DigestFile := defaultDigestFile;
          kaniko.NoPush := no_push c;
          kaniko.Verbosity := verbosity c;
          kaniko.UseNewRun := use_new_run c;
          kaniko.Platform := platform c |};
     kaniko.PluginArtifact :=
       {| kaniko.ArtifactTags := tags c;
          kaniko.ArtifactRepo := repo c;
          kaniko.Registry := registry c;
          kaniko.ArtifactFile := artifact_file c;
          kaniko.RegistryType := artifact.ECR |} |}.

Definition run (c : Context) : M (option error) :=
  let repo := repo c in
  let registry := registry c in
  let region := region c in
  let noPush := no_push c in
  '(dockerConfig, err) ←
    createDockerConfig (docker_username c) (docker_password c)
      (access_key c) (secret_key c) registry noPush;
  match err with
  | Some _ => ret err
  | None =>
  let '(jsonBytes, err) := json_Marshal dockerConfig in
  match err with
  | Some _ => ret err
  | None =>
  err ← ioutil_WriteFile dockerConfigPath jsonBytes;
  match err with
  | Some _ => ret err
  | None =>
  (* only create repository when pushing and create-repository is true *)
  err ← (if negb noPush && create_repository c
         then createRepository region repo registry
         else ret None);
  match err with
  | Some _ => ret err
  | None =>
  _ ← match lifecycle_policy c with
      | Some path =>
          '(contents, err) ← ioutil_ReadFile path;
          match err with
          | Some e => logrus_Fatal (Error e)
          | None =>
              err ← uploadLifeCyclePolicy region repo contents;
              match err with
              | Some e => logrus_Fatal ("error uploading ECR lifecycle policy: " +:+ Error e)
              | None => ret tt
              end
          end
      | None => ret tt
      end;
  _ ← match repository_policy c with
      | Some path =>
          '(contents, err) ← ioutil_ReadFile path;
          match err with
          | Some e => logrus_Fatal (Error e)
          | None =>
              err ← uploadRepositoryPolicy region repo registry contents;
              match err with
              | Some e => logrus_Fatal ("error uploading ECR lifecycle policy: " +:+ Error e)
              | None => ret tt
              end
          end
      | None => ret tt
      end;
  invoke (Exec (plugin_of c))
  end end end end.

(** The steps of [run], one after the other: the credential setup up to
    the write of the document, the gated creation of the repository, the
    two gated policy uploads, and the hand-over to the executor. *)
Definition credentialSetup (c : Context) : M (option error) :=
  '(dockerConfig, err) ←
    createDockerConfig (docker_username c) (docker_password c)
      (access_key c) (secret_key c) (registry c) (no_push c);
  match err with
  | Some _ => ret err
  | None =>
      let '(jsonBytes, err) := json_Marshal dockerConfig in
      match err with
      | Some _ => ret err
      | None => ioutil_WriteFile dockerConfigPath jsonBytes
      end
  end.

Definition repositoryEnsure (c : Context) : M (option error) :=
  if negb (no_push c) && create_repository c
  then createRepository (region c) (repo c) (registry c)
  else ret None.

Definition lifecyclePolicyUpload (c : Context) : M unit :=
  match lifecycle_policy c with
  | Some path =>
      '(contents, err) ← ioutil_ReadFile path;
      match err with
      | Some e => logrus_Fatal (Error e)
      | None =>
          err ← uploadLifeCyclePolicy (region c) (repo c) contents;
          match err with
          | Some e => logrus_Fatal ("error uploading ECR lifecycle policy: " +:+ Error e)
          | None => ret tt
          end
      end
  | None => ret tt
  end.

Definition repositoryPolicyUpload (c : Context) : M unit :=
  match repository_policy c with
  | Some path =>
      '(contents, err) ← ioutil_ReadFile path;
      match err with
      | Some e => logrus_Fatal (Error e)
      | None =>
          err ← uploadRepositoryPolicy (region c) (repo c) (registry c) contents;
          match err with
          | Some e => logrus_Fatal ("error uploading ECR lifecycle policy: " +:+ Error e)
          | None => ret tt
          end
      end
  | None => ret tt
  end.

(** The hand-over [plugin.Exec()]: the call is recorded and answered;
    the files the executor writes on its own are not followed. *)
Definition delegate (c : Context) : M (option error) := invoke (Exec (plugin_of c)).

(** The bootstrap succeeded: every step before the hand-over ran without
    an error. *)
Definition bootstrap_succeeds (c : Context) (w : World) : Prop :=
  ∃ w1 w2 w3 w4,
    credentialSetup c w = (Val None, w1) ∧
    repositoryEnsure c w1 = (Val None, w2) ∧
    lifecyclePolicyUpload c w2 = (Val tt, w3) ∧
    repositoryPolicyUpload c w3 = (Val tt, w4).

(** The config before the auth setup: the static binding of the default
    registry entry when a user name is supplied. *)
Definition static_config (dockerUsername dockerPassword : string) : docker.Config :=
  if decide (dockerUsername ≠ "")
  then docker.SetAuth RegistryV1 dockerUsername dockerPassword docker.NewConfig
  else docker.NewConfig.

(** [main]: the exit status of the process.  A process that returns
    from [main] exits with status 0, [logrus.Fatal] exits with status 1. *)
Definition main (w : World) : Z * World :=
  (* Load env-file if it exists first *)
  let env := cli.os_Getenv "PLUGIN_ENV_FILE" w in
  match (if decide (env ≠ "") then godotenv_Load env w else (Val None, w)) with
  | (Val (Some _), w0) => (1%Z, w0)
  | (Fatal _, w0) => (1%Z, w0)
  | (Val None, w0) =>
      match cli.App_Run run (parse_args w0) w0 with
      | (cli.Returned None, w') => (0%Z, w')
      | (cli.Returned (Some _), w') => (1%Z, w')
      | (cli.Exited code, w') => (code, w')
      end
  end.

End WithDockerPackage.

End ecr.

(** ** The GCR plugin (cmd/kaniko-gcr/main.go) *)

Module gcr.

(* GCR JSON key file path *)
Definition gcrKeyPath : string := "/kaniko/config.json".
Definition gcrEnvVariable : string := "GOOGLE_APPLICATION_CREDENTIALS".
Definition defaultDigestFile : string := "/kaniko/digest-file".

Record Context : Type := {
  dockerfile : string;
  context : string;
  drone_commit_ref : string;
  drone_repo_branch : string;
  tags : list string;
  expand_tag : bool;
  auto_tag : bool;
  auto_tag_suffix : string;
  args : list string;
  target : string;
  repo : string;
  custom_labels : list string;
  registry : string;
  registry_mirrors : list string;
  json_key : string;
  snapshot_mode : string;
  enable_cache : bool;
  cache_dir : string;
  cache_copy_layers : bool;
  cache_no_compress : bool;
  cache_repo : string;
  cache_ttl : Z;
  artifact_file : string;
  no_push : bool;
  verbosity : string;
  use_new_run : bool;
  platform : string
}.

Definition setupGCRAuth (jsonKey : string) : M (option error) :=
  err ← ioutil_WriteFile gcrKeyPath jsonKey;
  match err with
  | Some _ => ret (errors_Wrap err "failed to write GCR JSON key")
  | None =>
      err ← os_Setenv gcrEnvVariable gcrKeyPath;
      match err with
      | Some _ =>
          ret (errors_Wrap err
                 "failed to set GOOGLE_APPLICATION_CREDENTIALS environment variable")
      | None => ret None
      end
  end.

Definition plugin_of (c : Context) : kaniko.Plugin :=
  {| kaniko.PluginBuild :=
       {| kaniko.DroneCommitRef := drone_commit_ref c;
          kaniko.DroneRepoBranch := drone_repo_branch c;
          kaniko.Dockerfile := dockerfile c;
          kaniko.Context := context c;
          kaniko.Tags := tags c;
          kaniko.AutoTag := auto_tag c;
          kaniko.AutoTagSuffix := auto_tag_suffix c;
          kaniko.ExpandTag := expand_tag c;
          kaniko.Args := args c;
          kaniko.Target := target c;
          kaniko.Repo := Sprintf_slash (registry c) (repo c);
          kaniko.Mirrors := registry_mirrors c;
          kaniko.Labels := custom_labels c;
          kaniko.SnapshotMode := snapshot_mode c;
          kaniko.EnableCache := enable_cache c;
          kaniko.CacheDir := cache_dir c;
          kaniko.CacheCopyLayers := cache_copy_layers c;
          kaniko.CacheNoCompress := cache_no_compress c;
          kaniko.CacheRepo := Sprintf_slash (registry c) (cache_repo c);
          kaniko.CacheTTL := cache_ttl c;
          kaniko.DigestFile := defaultDigestFile;
          kaniko.NoPush := no_push c;
          kaniko.Verbosity := verbosity c;
          kaniko.UseNewRun := use_new_run c;
          kaniko.Platform := platform c |};
     kaniko.PluginArtifact :=
       {| kaniko.ArtifactTags := tags c;
          kaniko.ArtifactRepo := repo c;
          kaniko.Registry := registry c;
          kaniko.ArtifactFile := artifact_file c;
          kaniko.RegistryType := artifact.GCR |} |}.

Definition run (c : Context) : M (option error) :=
  let noPush := no_push c in
  let jsonKey := json_key c in
  (* JSON key may not be set in the following cases:
     1. Image does not need to be pushed to GCR.
     2. Workload identity is set on GKE in which pod will inherit the
        credentials via service account. *)
  err ← (if decide (jsonKey ≠ "") then setupGCRAuth jsonKey else ret None);
  match err with
  | Some _ => ret err
  | None => invoke (Exec (plugin_of c))
  end.

Section WithLibraries.

(** [godotenv.Load(filename)] and the parsing of [os.Args] and of the
    flags' environment variables by [App.Run]; both belong to libraries. *)
Variable godotenv_Load : string -> M (option error).
Variable parse_args : World -> cli.Invocation Context.

(** [main]: the exit status of the process.  A process that returns
    from [main] exits with status 0, [logrus.Fatal] exits with status 1. *)
Definition main (w : World) : Z * World :=
  (* Load env-file if it exists first *)
  let env := cli.os_Getenv "PLUGIN_ENV_FILE" w in
  match (if decide (env ≠ "") then godotenv_Load env w else (Val None, w)) with
  | (Val (Some _), w0) => (1%Z, w0)
  | (Fatal _, w0) => (1%Z, w0)
  | (Val None, w0) =>
      match cli.App_Run run (parse_args w0) w0 with
      | (cli.Returned None, w') => (0%Z, w')
      | (cli.Returned (Some _), w') => (1%Z, w')
      | (cli.Exited code, w') => (code, w')
      end
  end.

End WithLibraries.

End gcr.

(** ** Observations on computations *)

(** The calls [m] adds to the history of [w]. *)
Definition calls_of {A : Type} (m : M A) (w : World) : list Call :=
  drop (length (history w)) (history (m w).2).

(** The world's answer to [LoadDefaultConfig] at [w]. *)
Definition config_answer (region : string) (w : World) : option error :=
  respond w (history w) (LoadDefaultConfig region).

(** The world's answer to [c] when it is called right after a successful
    [LoadDefaultConfig]. *)
Definition answer_after_config (region : string) (c : Call) (w : World) : option error :=
  respond w (history w ++ [LoadDefaultConfig region]) c.

(** The create call [createRepository] issues for a registry host. *)
Definition create_call (region repo registry : string) : Call :=
  if ecr.isRegistryPublic registry
  then ecrpublic_CreateRepository region repo
  else ecr_CreateRepository region repo.

(** The bindings of both the public-registry domain and the target
    host to the credential helper, added to [c]. *)
Definition helper_config (registry : string) (c : docker.Config) : docker.Config :=
  docker.SetCredHelper registry "ecr-login"
    (docker.SetCredHelper ecr.ecrPublicDomain "ecr-login" c).

(** The auth setup of [createDockerConfig] was performed on the world
    [w] with result [r]: for an empty registry host it ended in the
    configuration error with the world as it was; for keys that cannot
    be exported it ended in the error of [os.Setenv]; otherwise both keys
    are exported (when both are supplied) and the returned config binds
    the public-registry domain and the target host to the credential
    helper. *)
Definition auth_setup_performed (accessKey secretKey registry : string) (w : World)
    (r : Res (option docker.Config * option error) * World) : Prop :=
  if decide (registry = "") then
    r = (Val (None, Some (fmt_Errorf "registry must be specified")), w)
  else if bool_decide (accessKey ≠ "") && bool_decide (secretKey ≠ "")
          && (has_byte Ascii.zero accessKey || has_byte Ascii.zero secretKey) then
    ∃ msg, r.1 = Val (None, Some (wrapped msg (SyscallError "setenv" "EINVAL")))
  else
    ∃ c, r.1 = Val (Some c, None)
      ∧ c !! ecr.ecrPublicDomain = Some (docker.CredHelper "ecr-login")
      ∧ c !! registry = Some (docker.CredHelper "ecr-login")
      ∧ environ r.2 =
          if bool_decide (accessKey ≠ "") && bool_decide (secretKey ≠ "")
          then <[ecr.secretKeyEnv := secretKey]>
                 (<[ecr.accessKeyEnv := accessKey]> (environ w))
          else environ w.

(** [m] leaves the observation [obs] of the world as it was. *)
Definition preserves {A X : Type} (obs : World → X) (m : M A) : Prop :=
  ∀ w, obs (m w).2 = obs w.

(** Observations that a recorded call other than the hand-over, a change
    of the environment, or a change of the files does not affect. *)
Definition call_blind {X : Type} (obs : World → X) : Prop :=
  ∀ c w, is_Exec c = false → obs (record_call c w) = obs w.

Definition env_blind {X : Type} (obs : World → X) : Prop :=
  ∀ f w, obs (set_environ f w) = obs w.

Definition file_blind {X : Type} (obs : World → X) : Prop :=
  ∀ f w, obs (set_files f w) = obs w.

(** The number of hand-overs to the executor so far. *)
Definition executed (w : World) : nat := executions (history w).

(** The exit status after the action returned [answer]: 0 for nil, the
    exit code of an error that carries one, 1 for any other error. *)
Definition status_of (answer : option error) : Z :=
  match answer with
  | None => 0%Z
  | Some err => default 1%Z (cli.ExitCode err)
  end.

(** [m] only adds calls that satisfy [Q] to the history. *)
Definition emits {A : Type} (Q : Call → Prop) (m : M A) : Prop :=
  ∀ w, ∃ l, history (m w).2 = history w ++ l ∧ Forall Q l.

(** A call to AWS: the loading of the SDK configuration or one of the
    registry operations. *)
Definition is_aws (c : Call) : bool :=
  match c with
  | LoadDefaultConfig _ => true
  | _ => is_network c
  end.

(** The calls a run of the ECR plugin with the flags [c] can make, each
    with the flags that allow it. *)
Definition ecr_footprint (c : ecr.Context) (call : Call) : Prop :=
  match call with
  | WriteFile path _ => path = ecr.dockerConfigPath
  | LoadDefaultConfig region =>
      region = ecr.region c ∧
      (negb (ecr.no_push c) && ecr.create_repository c = true ∨
       is_Some (ecr.lifecycle_policy c) ∨ is_Some (ecr.repository_policy c))
  | ecr_CreateRepository region repositoryName =>
      region = ecr.region c ∧ repositoryName = ecr.repo c ∧
      negb (ecr.no_push c) && ecr.create_repository c = true ∧
      ecr.isRegistryPublic (ecr.registry c) = false
  | ecrpublic_CreateRepository region repositoryName =>
      region = ecr.region c ∧ repositoryName = ecr.repo c ∧
      negb (ecr.no_push c) && ecr.create_repository c = true ∧
      ecr.isRegistryPublic (ecr.registry c) = true
  | ecr_PutLifecyclePolicy region repositoryName _ =>
      region = ecr.region c ∧ repositoryName = ecr.repo c ∧
      is_Some (ecr.lifecycle_policy c)
  | ecr_SetRepositoryPolicy region repositoryName _ =>
      region = ecr.region c ∧ repositoryName = ecr.repo c ∧
      is_Some (ecr.repository_policy c) ∧
      ecr.isRegistryPublic (ecr.registry c) = false
  | ecrpublic_SetRepositoryPolicy region repositoryName _ =>
      region = ecr.region c ∧ repositoryName = ecr.repo c ∧
      is_Some (ecr.repository_policy c) ∧
      ecr.isRegistryPublic (ecr.registry c) = true
  | Exec plugin => plugin = ecr.plugin_of c
  end.

(** The calls a run of the GCR plugin with the flags [c] can make. *)
Definition gcr_footprint (c : gcr.Context) (call : Call) : Prop :=
  match call with
  | WriteFile path data =>
      path = gcr.gcrKeyPath ∧ data = gcr.json_key c ∧ gcr.json_key c ≠ ""
  | Exec plugin => plugin = gcr.plugin_of c
  | _ => False
  end.

(** The hosts [createDockerConfig] binds: the default registry entry when
    a user name is supplied, and the public-registry domain and the
    target host when the auth setup is performed. *)
Definition bound_hosts (RegistryV1 dockerUsername accessKey registry : string)
    (noPush : bool) : gset string :=
  (if decide (dockerUsername ≠ "") then {[RegistryV1]} else ∅) ∪
  (if negb noPush || bool_decide (accessKey ≠ "")
   then {[ecr.ecrPublicDomain; registry]} else ∅).

(** ** Sample worlds and inputs *)

Module sample.

(** A world with an empty environment and file system in which every
    call succeeds. *)
Definition quiet : World := mkWorld ∅ ∅ [] (λ _ _, None).

(** The error the registry service answers when the repository exists. *)
Definition already_exists : error :=
  wrapped "operation error ECR: CreateRepository"
    (APIError "RepositoryAlreadyExistsException" "The repository already exists").

Definition access_denied : error :=
  wrapped "operation error ECR: CreateRepository"
    (APIError "AccessDeniedException" "not authorized to perform ecr:CreateRepository").

Definition connection_refused : error :=
  wrapped "operation error ECR: CreateRepository"
    (wrapped "https response error" (errorString "dial tcp: connection refused")).

Definition same_repository (c d : Call) : bool :=
  match c, d with
  | ecr_CreateRepository r n, ecr_CreateRepository r' n'
  | ecrpublic_CreateRepository r n, ecrpublic_CreateRepository r' n' =>
      bool_decide (r = r') && bool_decide (n = n')
  | _, _ => false
  end.

(** A registry that remembers its repositories: a create call for a
    repository that an earlier call created is answered with
    [already_exists]. *)
Definition registry : World :=
  mkWorld ∅ ∅ [] (λ h c, if existsb (same_repository c) h then Some already_exists else None).

(** Worlds whose network calls all fail with the given error. *)
Definition failing_network (e : error) : World :=
  mkWorld ∅ ∅ [] (λ _ c, if is_network c then Some e else None).

(** A world with one policy file. *)
Definition with_policy_file : World :=
  mkWorld ∅ {[ "/drone/src/policy.json" := "{}" ]} [] (λ _ _, None).

(** A world in which the key file cannot be written. *)
Definition read_only : World :=
  mkWorld ∅ ∅ [] (λ _ c, if is_WriteFile c then Some (PathError "open" "/kaniko" "EROFS") else None).

(** A world with one policy file in which AWS refuses every policy. *)
Definition rejecting_policies : World :=
  mkWorld ∅ {[ "/drone/src/policy.json" := "{}" ]} []
    (λ _ c, match c with
            | ecr_PutLifecyclePolicy _ _ _ | ecr_SetRepositoryPolicy _ _ _
            | ecrpublic_SetRepositoryPolicy _ _ _ =>
                Some (APIError "InvalidParameterException" "invalid policy")
            | _ => None
            end).

(** A world in which the SDK configuration cannot be loaded. *)
Definition no_aws_config : World :=
  mkWorld ∅ ∅ []
    (λ _ c, match c with
            | LoadDefaultConfig _ => Some (errorString "failed to load shared config")
            | _ => None
            end).

(** A world whose file system already holds a credential document and a
    key file. *)
Definition stale_files : World :=
  mkWorld {[ "HOME" := "/root" ]}
    {[ "/kaniko/.docker/config.json" := "stale"; "/kaniko/config.json" := "stale";
       "/drone/src/Dockerfile" := "FROM scratch" ]}
    [] (λ _ _, None).

Definition RegistryV1 : string := "https://index.docker.io/v1/".

(** An env-file loader for files that define no variable: it only fails
    when the file is missing. *)
Definition godotenv_Load (filename : string) : M (option error) := λ w,
  match files w !! filename with
  | Some _ => (Val None, w)
  | None => (Val (Some (PathError "open" filename "ENOENT")), w)
  end.


Definition render (entry : string * docker.Descriptor) : string :=
  match entry.2 with
  | docker.Auth username _ => entry.1 +:+ " auth " +:+ username
  | docker.CredHelper helper => entry.1 +:+ " helper " +:+ helper
  end.

Definition json_Marshal (c : option docker.Config) : string * option error :=
  match c with
  | None => ("null", None)
  | Some c => (String.concat "; " (render <$> map_to_list c), None)
  end.

(** The flags of an ECR run; the others are at their defaults. *)
Definition ecr_flags (registry repo username accessKey secretKey : string)
    (noPush createRepository : bool) (lifecyclePolicy repositoryPolicy : option string)
  : ecr.Context :=
  {| ecr.dockerfile := "Dockerfile";
     ecr.docker_username := username;
     ecr.docker_password := "secret";
     ecr.context := ".";
     ecr.drone_commit_ref := "refs/heads/main";
     ecr.drone_repo_branch := "main";
     ecr.tags := ["latest"];
     ecr.expand_tag := false;
     ecr.auto_tag := false;
     ecr.auto_tag_suffix := "";
     ecr.args := [];
     ecr.target := "";
     ecr.repo := repo;
     ecr.create_repository := createRepository;
     ecr.region := "us-east-1";
     ecr.custom_labels := [];
     ecr.registry := registry;
     ecr.registry_mirrors := [];
     ecr.access_key := accessKey;
     ecr.secret_key := secretKey;
     ecr.snapshot_mode := "";
     ecr.lifecycle_policy := lifecyclePolicy;
     ecr.repository_policy := repositoryPolicy;
     ecr.enable_cache := false;
     ecr.cache_dir := "/cache";
     ecr.cache_copy_layers := false;
     ecr.cache_no_compress := false;
     ecr.cache_repo := "";
     ecr.cache_ttl := 0;
     ecr.artifact_file := "";
     ecr.no_push := noPush;
     ecr.verbosity := "";
     ecr.use_new_run := false;
     ecr.platform := "" |}.

(** The flags of a GCR run; the others are at their defaults. *)
Definition gcr_flags (jsonKey : string) (noPush : bool) : gcr.Context :=
  {| gcr.dockerfile := "Dockerfile";
     gcr.context := ".";
     gcr.drone_commit_ref := "refs/heads/main";
     gcr.drone_repo_branch := "main";
     gcr.tags := ["latest"];
     gcr.expand_tag := false;
     gcr.auto_tag := false;
     gcr.auto_tag_suffix := "";
     gcr.args := [];
     gcr.target := "";
     gcr.repo := "project/app";
     gcr.custom_labels := [];
     gcr.registry := "gcr.io";
     gcr.registry_mirrors := [];
     gcr.json_key := jsonKey;
     gcr.snapshot_mode := "";
     gcr.enable_cache := false;
     gcr.cache_dir := "/cache";
     gcr.cache_copy_layers := false;
     gcr.cache_no_compress := false;
     gcr.cache_repo := "";
     gcr.cache_ttl := 0;
     gcr.artifact_file := "";
     gcr.no_push := noPush;
     gcr.verbosity := "";
     gcr.use_new_run := false;
     gcr.platform := "" |}.

End sample.

(** * Properties *)

(** ** Strings *)

Lemma prefix_app (p s : string) :
  String.prefix p s = true ↔ ∃ rest, s = p +:+ rest.
Proof.
  revert s. induction p as [|a p IH]; intros s.
  - split; [intros _; by exists s | by destruct s].
  - destruct s as [|b s]; simpl.
    + split; [done | intros [rest H]; discriminate H].
    + destruct (ascii_dec a b) as [->|Hab].
      * rewrite IH. split; intros [rest H]; exists rest.
        -- by rewrite H.
        -- by injection H.
      * split; [done | intros [rest H]; injection H; congruence].
Qed.

(** ** Primitive operations *)

Lemma os_Setenv_valid_key (key value : string) (w : World) :
  key ≠ "" → has_byte "="%char key = false → has_byte Ascii.zero key = false →
  os_Setenv key value w =
    if has_byte Ascii.zero value
    then (Val (Some (SyscallError "setenv" "EINVAL")), w)
    else (Val None, set_environ (insert key value) w).
Proof.
  intros Hkey Heq Hnul. unfold os_Setenv.
  destruct (decide (key = "")) as [|_]; [done|].
  by rewrite Heq, Hnul.
Qed.

(** ** Frame rules *)

Section frame.
Context {X : Type} (obs : World → X).

Lemma preserves_ret {A : Type} (a : A) : preserves obs (ret a).
Proof. by intros w. Qed.

Lemma preserves_logrus_Fatal {A : Type} (msg : string) :
  preserves obs (logrus_Fatal (A:=A) msg).
Proof. by intros w. Qed.

Lemma preserves_bind {A B : Type} (m : M A) (f : A → M B) :
  preserves obs m → (∀ a, preserves obs (f a)) → preserves obs (bind m f).
Proof.
  intros Hm Hf w. unfold bind. specialize (Hm w).
  destruct (m w) as [[a|msg] w']; simpl in *; [|done].
  by rewrite Hf.
Qed.

Lemma preserves_invoke (c : Call) :
  call_blind obs → is_Exec c = false → preserves obs (invoke c).
Proof. intros Hobs Hc w. by apply Hobs. Qed.

Lemma preserves_os_Setenv (key value : string) :
  env_blind obs → preserves obs (os_Setenv key value).
Proof.
  intros Hobs w. unfold os_Setenv.
  destruct (decide (key = "")); [done|].
  destruct (_ || _); [done|]. apply Hobs.
Qed.

Lemma preserves_store_file (path data : string) :
  file_blind obs → preserves obs (store_file path data).
Proof. intros Hobs w. apply Hobs. Qed.

Lemma preserves_ioutil_ReadFile (path : string) : preserves obs (ioutil_ReadFile path).
Proof. intros w. unfold ioutil_ReadFile. by destruct (files w !! path). Qed.

End frame.

Lemma executions_app (h1 h2 : list Call) :
  executions (h1 ++ h2) = executions h1 + executions h2.
Proof. induction h1 as [|c h1 IH]; simpl; [done|]. rewrite IH. lia. Qed.

Lemma executed_record_call (c : Call) (w : World) :
  executed (record_call c w) = executed w + (if is_Exec c then 1 else 0).
Proof. unfold executed. simpl. rewrite executions_app. simpl. lia. Qed.

Lemma executed_call_blind : call_blind executed.
Proof. intros c w Hc. rewrite executed_record_call, Hc. lia. Qed.

Lemma environ_call_blind : call_blind environ.
Proof. by intros c w _. Qed.

Lemma files_call_blind : call_blind files.
Proof. by intros c w _. Qed.

Lemma executed_env_blind : env_blind executed.
Proof. by intros f w. Qed.

Lemma executed_file_blind : file_blind executed.
Proof. by intros f w. Qed.

Lemma environ_file_blind : file_blind environ.
Proof. by intros f w. Qed.

Lemma files_env_blind : env_blind files.
Proof. by intros f w. Qed.

Create HintDb frame.
#[local] Hint Resolve executed_call_blind environ_call_blind files_call_blind
  executed_env_blind executed_file_blind environ_file_blind files_env_blind : frame.

(** Decomposes a frame goal along the structure of the computation. *)
Ltac frame :=
  repeat first
    [ apply preserves_ret
    | apply preserves_logrus_Fatal
    | apply preserves_ioutil_ReadFile
    | apply preserves_bind; [|intros ?]
    | apply preserves_invoke; [solve [eauto with frame]|reflexivity]
    | apply preserves_os_Setenv; solve [eauto with frame]
    | apply preserves_store_file; solve [eauto with frame]
    | match goal with
      | |- preserves _ (match ?x with _ => _ end) => destruct x
      end ].

Lemma calls_of_app {A : Type} (m : M A) (w : World) (l : list Call) :
  history (m w).2 = history w ++ l → calls_of m w = l.
Proof. intros H. unfold calls_of. rewrite H. apply drop_app_length. Qed.

Lemma calls_of_unchanged {A : Type} (m : M A) (w : World) :
  (m w).2 = w → calls_of m w = [].
Proof. intros H. apply calls_of_app. rewrite H. by rewrite app_nil_r. Qed.

(** ** Registry-existence ensurer: [createRepository] *)

(** Unfolds the monad and the SDK calls that only record and answer. *)
Ltac step_M :=
  unfold bind, ret, invoke, ecr.config_LoadDefaultConfig, config_answer,
    answer_after_config in *; simpl in *.

Lemma createRepository_reaches_backend (region repo registry : string) (w : World) :
  registry ≠ "" → repo ≠ "" → config_answer region w = None →
  ecr.createRepository region repo registry w =
    (Val (match errors_As_APIError
                  (answer_after_config region (create_call region repo registry) w) with
          | Some apiError =>
              if decide (ErrorCode apiError ≠ "RepositoryAlreadyExistsException")
              then errors_Wrap
                     (answer_after_config region (create_call region repo registry) w)
                     "failed to create repository"
              else None
          | None => None
          end),
     record_call (create_call region repo registry)
       (record_call (LoadDefaultConfig region) w)).
Proof.
  intros Hreg Hrepo Hcfg. unfold ecr.createRepository, create_call.
  destruct (decide (registry = "")) as [|_]; [done|].
  destruct (decide (repo = "")) as [|_]; [done|].
  step_M. rewrite Hcfg.
  destruct (ecr.isRegistryPublic registry); simpl;
    match goal with |- context [errors_As_APIError ?a] =>
      destruct (errors_As_APIError a) as [apiError|] end; try done;
    by destruct (decide (ErrorCode apiError ≠ _)).
Qed.

Lemma createRepository_missing_name (region repo registry : string) (w : World) :
  repo = "" ∨ registry = "" →
  ecr.createRepository region repo registry w =
    (Val (Some (fmt_Errorf (if decide (registry = "") then "registry must be specified"
                            else "repo must be specified"))), w).
Proof.
  intros H. unfold ecr.createRepository.
  destruct (decide (registry = "")) as [|Hreg]; [done|].
  destruct (decide (repo = "")) as [|Hrepo]; [done|].
  by destruct H.
Qed.

(** C7: [createRepository] fails with a configuration error whenever the
    repository name or the registry host is empty, and it does so before
    any call leaves the process: the world, and with it the history of
    calls, is unchanged. *)
Theorem createRepository_requires_names (region repo registry : string) (w : World) :
  repo = "" ∨ registry = "" →
  (∃ msg, ecr.createRepository region repo registry w = (Val (Some (fmt_Errorf msg)), w))
  ∧ calls_of (ecr.createRepository region repo registry) w = [].
Proof.
  intros H. pose proof (createRepository_missing_name region repo registry w H) as E.
  split.
  - eexists. exact E.
  - apply calls_of_unchanged. by rewrite E.
Qed.

Lemma createRepository_requires_names_witness :
  (∃ msg, ecr.createRepository "us-east-1" "" "123.dkr.ecr.us-east-1.amazonaws.com"
            (sample.failing_network sample.access_denied)
          = (Val (Some (fmt_Errorf msg)), sample.failing_network sample.access_denied))
  ∧ calls_of (ecr.createRepository "us-east-1" "" "123.dkr.ecr.us-east-1.amazonaws.com")
      (sample.failing_network sample.access_denied) = [].
Proof.
  apply (createRepository_requires_names "us-east-1" ""
           "123.dkr.ecr.us-east-1.amazonaws.com"
           (sample.failing_network sample.access_denied)).
  left. reflexivity.
Defined.

(** C1: when the backend answers the create call with an API error,
    [createRepository] returns no error if the code is
    "RepositoryAlreadyExistsException" and the error wrapped as "failed to
    create repository" for every other code; so a second invocation, in
    the world the first one left, does not fail when the backend reports
    that the repository already exists. *)
Theorem createRepository_idempotent (region repo registry : string) (w : World) :
  registry ≠ "" → repo ≠ "" →
  (∀ e code message,
     config_answer region w = None →
     answer_after_config region (create_call region repo registry) w = Some e →
     As_APIError e = Some (code, message) →
     (ecr.createRepository region repo registry w).1 =
       if decide (code = "RepositoryAlreadyExistsException")
       then Val None
       else Val (Some (wrapped "failed to create repository" e)))
  ∧ (let w1 := (ecr.createRepository region repo registry w).2 in
     ∀ e message,
       config_answer region w1 = None →
       answer_after_config region (create_call region repo registry) w1 = Some e →
       As_APIError e = Some ("RepositoryAlreadyExistsException", message) →
       (ecr.createRepository region repo registry w1).1 = Val None).
Proof.
  intros Hreg Hrepo.
  assert (∀ w' e code message,
     config_answer region w' = None →
     answer_after_config region (create_call region repo registry) w' = Some e →
     As_APIError e = Some (code, message) →
     (ecr.createRepository region repo registry w').1 =
       if decide (code = "RepositoryAlreadyExistsException")
       then Val None
       else Val (Some (wrapped "failed to create repository" e))) as Hgen.
  { intros w' e code message Hcfg Hans Hapi.
    rewrite createRepository_reaches_backend by done.
    rewrite Hans. simpl. rewrite Hapi. simpl.
    destruct (decide (code ≠ _)) as [Hne|Heq];
      destruct (decide (code = _)) as [Heq'|Hne']; done. }
  split.
  - apply Hgen.
  - intros w1 e message Hcfg Hans Hapi.
    by rewrite (Hgen w1 e _ message Hcfg Hans Hapi).
Qed.

Lemma createRepository_idempotent_witness :
  (ecr.createRepository "us-east-1" "app" "123.dkr.ecr.us-east-1.amazonaws.com"
     (sample.failing_network sample.access_denied)).1
    = Val (Some (wrapped "failed to create repository" sample.access_denied))
  ∧ (ecr.createRepository "us-east-1" "app" "123.dkr.ecr.us-east-1.amazonaws.com"
       sample.registry).1 = Val None
  ∧ (ecr.createRepository "us-east-1" "app" "123.dkr.ecr.us-east-1.amazonaws.com"
       (ecr.createRepository "us-east-1" "app" "123.dkr.ecr.us-east-1.amazonaws.com"
          sample.registry).2).1 = Val None.
Proof.
  split; [|split].
  - apply (proj1 (createRepository_idempotent "us-east-1" "app"
                    "123.dkr.ecr.us-east-1.amazonaws.com"
                    (sample.failing_network sample.access_denied)
                    ltac:(discriminate) ltac:(discriminate))
             sample.access_denied "AccessDeniedException"
             "not authorized to perform ecr:CreateRepository");
      reflexivity.
  - reflexivity.
  - apply (proj2 (createRepository_idempotent "us-east-1" "app"
                    "123.dkr.ecr.us-east-1.amazonaws.com" sample.registry
                    ltac:(discriminate) ltac:(discriminate))
             sample.already_exists "The repository already exists");
      reflexivity.
Defined.

(** C9: when the backend answers the create call with an error that is
    not an API error (nothing in its chain carries an error code),
    [createRepository] returns no error. *)
Theorem createRepository_swallows_other_errors
    (region repo registry : string) (w : World) (e : error) :
  registry ≠ "" → repo ≠ "" →
  config_answer region w = None →
  answer_after_config region (create_call region repo registry) w = Some e →
  As_APIError e = None →
  (ecr.createRepository region repo registry w).1 = Val None.
Proof.
  intros Hreg Hrepo Hcfg Hans Hapi.
  rewrite createRepository_reaches_backend by done.
  rewrite Hans. simpl. by rewrite Hapi.
Qed.

Lemma createRepository_swallows_other_errors_witness :
  (ecr.createRepository "us-east-1" "app" "123.dkr.ecr.us-east-1.amazonaws.com"
     (sample.failing_network sample.connection_refused)).1 = Val None.
Proof.
  apply (createRepository_swallows_other_errors "us-east-1" "app"
           "123.dkr.ecr.us-east-1.amazonaws.com"
           (sample.failing_network sample.connection_refused)
           sample.connection_refused);
    first [discriminate | reflexivity].
Defined.

(** C4: a registry host selects the public backend exactly when it is
    the public-registry domain "public.ecr.aws" followed by anything
    (nothing included), and the private backend otherwise;
    [createRepository] sends its create call to the backend so selected,
    and for the host "public.ecr.aws/myorg" that is the public one. *)
Theorem isRegistryPublic_selects_backend :
  (∀ registry,
     ecr.isRegistryPublic registry = true ↔ ∃ rest, registry = "public.ecr.aws" +:+ rest)
  ∧ (∀ region repo registry w,
       registry ≠ "" → repo ≠ "" → config_answer region w = None →
       calls_of (ecr.createRepository region repo registry) w =
         [LoadDefaultConfig region;
          if ecr.isRegistryPublic registry
          then ecrpublic_CreateRepository region repo
          else ecr_CreateRepository region repo])
  ∧ (∀ region w,
       config_answer region w = None →
       calls_of (ecr.createRepository region "app" "public.ecr.aws/myorg") w =
         [LoadDefaultConfig region; ecrpublic_CreateRepository region "app"]).
Proof.
  assert (∀ region repo registry w,
       registry ≠ "" → repo ≠ "" → config_answer region w = None →
       calls_of (ecr.createRepository region repo registry) w =
         [LoadDefaultConfig region; create_call region repo registry]) as Hcalls.
  { intros region repo registry w Hreg Hrepo Hcfg. apply calls_of_app.
    rewrite createRepository_reaches_backend by done. simpl.
    by rewrite <- app_assoc. }
  split; [|split].
  - intros registry. unfold ecr.isRegistryPublic, strings_HasPrefix, ecr.ecrPublicDomain.
    apply prefix_app.
  - intros region repo registry w Hreg Hrepo Hcfg.
    rewrite Hcalls by done. reflexivity.
  - intros region w Hcfg. rewrite Hcalls by done. reflexivity.
Qed.

(** ** Policy uploader *)

Lemma uploadLifeCyclePolicy_config_loaded (region repo lifecyclePolicy : string) (w : World) :
  config_answer region w = None →
  ecr.uploadLifeCyclePolicy region repo lifecyclePolicy w =
    (Val (answer_after_config region (ecr_PutLifecyclePolicy region repo lifecyclePolicy) w),
     record_call (ecr_PutLifecyclePolicy region repo lifecyclePolicy)
       (record_call (LoadDefaultConfig region) w)).
Proof. intros Hcfg. unfold ecr.uploadLifeCyclePolicy. step_M. by rewrite Hcfg. Qed.

Lemma uploadRepositoryPolicy_config_loaded
    (region repo registry repositoryPolicy : string) (w : World) :
  config_answer region w = None →
  let call := if ecr.isRegistryPublic registry
              then ecrpublic_SetRepositoryPolicy region repo repositoryPolicy
              else ecr_SetRepositoryPolicy region repo repositoryPolicy in
  ecr.uploadRepositoryPolicy region repo registry repositoryPolicy w =
    (Val (answer_after_config region call w),
     record_call call (record_call (LoadDefaultConfig region) w)).
Proof.
  intros Hcfg. unfold ecr.uploadRepositoryPolicy. step_M. rewrite Hcfg.
  by destruct (ecr.isRegistryPublic registry).
Qed.

Section frame_ecr.
Context {X : Type} (obs : World → X) (Hcall : call_blind obs).

Lemma preserves_createRepository (region repo registry : string) :
  preserves obs (ecr.createRepository region repo registry).
Proof. unfold ecr.createRepository, ecr.config_LoadDefaultConfig. frame. Qed.

Lemma preserves_uploadLifeCyclePolicy (region repo text : string) :
  preserves obs (ecr.uploadLifeCyclePolicy region repo text).
Proof. unfold ecr.uploadLifeCyclePolicy, ecr.config_LoadDefaultConfig. frame. Qed.

Lemma preserves_uploadRepositoryPolicy (region repo registry text : string) :
  preserves obs (ecr.uploadRepositoryPolicy region repo registry text).
Proof. unfold ecr.uploadRepositoryPolicy, ecr.config_LoadDefaultConfig. frame. Qed.

Lemma preserves_repositoryEnsure (c : ecr.Context) :
  preserves obs (ecr.repositoryEnsure c).
Proof.
  unfold ecr.repositoryEnsure.
  destruct (_ && _); [apply preserves_createRepository | apply preserves_ret].
Qed.

Lemma preserves_lifecyclePolicyUpload (c : ecr.Context) :
  preserves obs (ecr.lifecyclePolicyUpload c).
Proof.
  unfold ecr.lifecyclePolicyUpload. frame.
Qed.

Lemma preserves_repositoryPolicyUpload (c : ecr.Context) :
  preserves obs (ecr.repositoryPolicyUpload c).
Proof.
  unfold ecr.repositoryPolicyUpload. frame.
Qed.

Lemma preserves_ioutil_WriteFile (path data : string) :
  file_blind obs → preserves obs (ioutil_WriteFile path data).
Proof.
  intros Hfile. unfold ioutil_WriteFile. frame.
Qed.

End frame_ecr.

(** C2, as amended: [uploadRepositoryPolicy] selects the public or the
    private backend by the host-prefix test of [createRepository] and
    hands the policy text unchanged to that backend's set-policy
    operation; [uploadLifeCyclePolicy], which takes no registry host,
    always hands the text unchanged to the private backend's
    put-lifecycle-policy operation.  Each returns the backend's answer. *)
Theorem policy_upload_backends
    (region repo registry policyText : string) (w : World) :
  config_answer region w = None →
  (calls_of (ecr.uploadRepositoryPolicy region repo registry policyText) w =
     [LoadDefaultConfig region;
      if ecr.isRegistryPublic registry
      then ecrpublic_SetRepositoryPolicy region repo policyText
      else ecr_SetRepositoryPolicy region repo policyText]
   ∧ (ecr.uploadRepositoryPolicy region repo registry policyText w).1 =
       Val (answer_after_config region
              (if ecr.isRegistryPublic registry
               then ecrpublic_SetRepositoryPolicy region repo policyText
               else ecr_SetRepositoryPolicy region repo policyText) w))
  ∧ (calls_of (ecr.uploadLifeCyclePolicy region repo policyText) w =
       [LoadDefaultConfig region; ecr_PutLifecyclePolicy region repo policyText]
     ∧ (ecr.uploadLifeCyclePolicy region repo policyText w).1 =
         Val (answer_after_config region
                (ecr_PutLifecyclePolicy region repo policyText) w)).
Proof.
  intros Hcfg. split; split.
  - apply calls_of_app. rewrite uploadRepositoryPolicy_config_loaded by done.
    simpl. by rewrite <- app_assoc.
  - by rewrite uploadRepositoryPolicy_config_loaded.
  - apply calls_of_app. rewrite uploadLifeCyclePolicy_config_loaded by done.
    simpl. by rewrite <- app_assoc.
  - by rewrite uploadLifeCyclePolicy_config_loaded.
Qed.

Lemma policy_upload_backends_witness :
  calls_of (ecr.uploadRepositoryPolicy "us-east-1" "app" "public.ecr.aws/myorg" "{}")
    sample.quiet
  = [LoadDefaultConfig "us-east-1"; ecrpublic_SetRepositoryPolicy "us-east-1" "app" "{}"]
  ∧ calls_of (ecr.uploadLifeCyclePolicy "us-east-1" "app" "{}") sample.quiet
    = [LoadDefaultConfig "us-east-1"; ecr_PutLifecyclePolicy "us-east-1" "app" "{}"].
Proof.
  pose proof (policy_upload_backends "us-east-1" "app" "public.ecr.aws/myorg" "{}"
                sample.quiet eq_refl) as [[Hrepo _] [Hlife _]].
  split; [exact Hrepo | exact Hlife].
Defined.

(** C2, as stated, fails for the lifecycle policy: in a run for the public
    host "public.ecr.aws/myorg" the lifecycle policy is sent to the private
    backend. *)
Lemma uploadLifeCyclePolicy_public_host_counterexample :
  let c := sample.ecr_flags "public.ecr.aws/myorg" "app" "" "" "" true false
             (Some "/drone/src/policy.json") None in
  ecr.isRegistryPublic (ecr.registry c) = true
  ∧ calls_of (ecr.run sample.RegistryV1 sample.json_Marshal c) sample.with_policy_file
    = [WriteFile "/kaniko/.docker/config.json" "";
       LoadDefaultConfig "us-east-1";
       ecr_PutLifecyclePolicy "us-east-1" "app" "{}";
       Exec (ecr.plugin_of c)]
  ∧ backend_of (ecr_PutLifecyclePolicy "us-east-1" "app" "{}") = Some Private
  ∧ calls_of (ecr.uploadLifeCyclePolicy "us-east-1" "app" "{}") sample.with_policy_file
    = [LoadDefaultConfig "us-east-1"; ecr_PutLifecyclePolicy "us-east-1" "app" "{}"].
Proof. vm_compute. done. Qed.

(** ** Credential-file synthesizer: [createDockerConfig] *)

Section ecr_properties.
Variable RegistryV1 : string.
Variable json_Marshal : option docker.Config → string * option error.

Local Abbreviation createDockerConfig := (ecr.createDockerConfig RegistryV1).
Local Abbreviation static_config := (ecr.static_config RegistryV1).
Local Abbreviation run := (ecr.run RegistryV1 json_Marshal).
Local Abbreviation main := (ecr.main RegistryV1 json_Marshal).
Local Abbreviation credentialSetup := (ecr.credentialSetup RegistryV1 json_Marshal).
Local Abbreviation bootstrap_succeeds := (ecr.bootstrap_succeeds RegistryV1 json_Marshal).

Lemma setup_gate_closed (noPush : bool) (accessKey : string) :
  noPush = true → accessKey = "" → negb noPush || bool_decide (accessKey ≠ "") = false.
Proof. intros -> ->. reflexivity. Qed.

Lemma setup_gate_open (noPush : bool) (accessKey : string) :
  noPush = false ∨ accessKey ≠ "" → negb noPush || bool_decide (accessKey ≠ "") = true.
Proof.
  intros [->|H]; [done|]. rewrite (bool_decide_eq_true_2 _ H). apply orb_true_r.
Qed.

Lemma createDockerConfig_skipped
    (dockerUsername dockerPassword accessKey secretKey registry : string)
    (noPush : bool) (w : World) :
  noPush = true → accessKey = "" →
  createDockerConfig dockerUsername dockerPassword accessKey secretKey registry noPush w =
    (Val (Some (static_config dockerUsername dockerPassword), None), w).
Proof.
  intros Hpush Hkey. unfold ecr.createDockerConfig.
  rewrite (setup_gate_closed _ _ Hpush Hkey). reflexivity.
Qed.

Lemma createDockerConfig_no_registry
    (dockerUsername dockerPassword accessKey secretKey : string)
    (noPush : bool) (w : World) :
  noPush = false ∨ accessKey ≠ "" →
  createDockerConfig dockerUsername dockerPassword accessKey secretKey "" noPush w =
    (Val (None, Some (fmt_Errorf "registry must be specified")), w).
Proof.
  intros Hgate. unfold ecr.createDockerConfig.
  rewrite (setup_gate_open _ _ Hgate). reflexivity.
Qed.

Lemma createDockerConfig_setup
    (dockerUsername dockerPassword accessKey secretKey registry : string)
    (noPush : bool) (w : World) :
  noPush = false ∨ accessKey ≠ "" → registry ≠ "" →
  createDockerConfig dockerUsername dockerPassword accessKey secretKey registry noPush w =
    if bool_decide (accessKey ≠ "") && bool_decide (secretKey ≠ "") then
      if has_byte Ascii.zero accessKey then
        (Val (None, Some (wrapped "failed to set AWS_ACCESS_KEY_ID environment variable"
                            (SyscallError "setenv" "EINVAL"))), w)
      else if has_byte Ascii.zero secretKey then
        (Val (None, Some (wrapped "failed to set AWS_SECRET_ACCESS_KEY environment variable"
                            (SyscallError "setenv" "EINVAL"))),
         set_environ (insert ecr.accessKeyEnv accessKey) w)
      else
        (Val (Some (helper_config registry (static_config dockerUsername dockerPassword)),
              None),
         set_environ (insert ecr.secretKeyEnv secretKey)
           (set_environ (insert ecr.accessKeyEnv accessKey) w))
    else
      (Val (Some (helper_config registry (static_config dockerUsername dockerPassword)),
            None), w).
Proof.
  intros Hgate Hreg. unfold ecr.createDockerConfig.
  rewrite (setup_gate_open _ _ Hgate).
  destruct (decide (registry = "")) as [|_]; [done|].
  destruct (bool_decide (accessKey ≠ "") && bool_decide (secretKey ≠ "")); [|done].
  unfold bind at 1. unfold bind at 1.
  rewrite os_Setenv_valid_key by done.
  destruct (has_byte Ascii.zero accessKey); [done|].
  unfold bind at 1.
  rewrite os_Setenv_valid_key by done.
  by destruct (has_byte Ascii.zero secretKey).
Qed.

Lemma static_config_lookup (dockerUsername dockerPassword host : string) :
  static_config dockerUsername dockerPassword !! host = None ∨
  static_config dockerUsername dockerPassword !! host =
    Some (docker.Auth dockerUsername dockerPassword).
Proof.
  unfold ecr.static_config, docker.SetAuth, docker.NewConfig.
  destruct (decide (dockerUsername ≠ "")); [|by left].
  destruct (decide (RegistryV1 = host)) as [->|Hne].
  - right. apply lookup_insert_eq.
  - left. by rewrite lookup_insert_ne.
Qed.



Lemma helper_config_lookup (registry : string) (c : docker.Config) :
  helper_config registry c !! ecr.ecrPublicDomain = Some (docker.CredHelper "ecr-login")
  ∧ helper_config registry c !! registry = Some (docker.CredHelper "ecr-login").
Proof.
  unfold helper_config, docker.SetCredHelper. split.
  - destruct (decide (registry = ecr.ecrPublicDomain)) as [->|Hne].
    + apply lookup_insert_eq.
    + rewrite lookup_insert_ne by done. apply lookup_insert_eq.
  - apply lookup_insert_eq.
Qed.

(** C6: whenever the auth setup is performed (a push is requested or an
    access key is supplied) and [createDockerConfig] returns a config,
    that config is the static one with the credential helper "ecr-login"
    set first for the public-registry domain "public.ecr.aws" and then
    for the target registry host, so it binds both to the helper; and it
    does return a config when the host is not empty and the keys can be
    exported. *)
Theorem createDockerConfig_binds_helper
    (dockerUsername dockerPassword accessKey secretKey registry : string)
    (noPush : bool) (w : World) :
  noPush = false ∨ accessKey ≠ "" →
  (∀ c w',
     createDockerConfig dockerUsername dockerPassword accessKey secretKey registry noPush w
       = (Val (Some c, None), w') →
     c = docker.SetCredHelper registry "ecr-login"
           (docker.SetCredHelper ecr.ecrPublicDomain "ecr-login"
              (static_config dockerUsername dockerPassword))
     ∧ c !! ecr.ecrPublicDomain = Some (docker.CredHelper "ecr-login")
     ∧ c !! registry = Some (docker.CredHelper "ecr-login"))
  ∧ (registry ≠ "" →
     has_byte Ascii.zero accessKey = false → has_byte Ascii.zero secretKey = false →
     ∃ c w',
       createDockerConfig dockerUsername dockerPassword accessKey secretKey registry noPush w
         = (Val (Some c, None), w')).
Proof.
  intros Hgate. split.
  - intros c w' H.
    destruct (decide (registry = "")) as [->|Hreg].
    { rewrite createDockerConfig_no_registry in H by done. discriminate H. }
    rewrite createDockerConfig_setup in H by done.
    assert (c = helper_config registry (static_config dockerUsername dockerPassword))
      as ->; [|split; [done | apply helper_config_lookup]].
    destruct (_ && _); [|congruence].
    destruct (has_byte Ascii.zero accessKey); [discriminate H|].
    destruct (has_byte Ascii.zero secretKey); [discriminate H|congruence].
  - intros Hreg Hak Hsk. rewrite createDockerConfig_setup by done.
    rewrite Hak, Hsk. destruct (_ && _); eauto.
Qed.

(** ** Orchestrator: [run] *)

Lemma run_steps (c : ecr.Context) (w : World) :
  run c w =
    match credentialSetup c w with
    | (Val None, w1) =>
        match ecr.repositoryEnsure c w1 with
        | (Val None, w2) =>
            match ecr.lifecyclePolicyUpload c w2 with
            | (Val _, w3) =>
                match ecr.repositoryPolicyUpload c w3 with
                | (Val _, w4) => ecr.delegate c w4
                | (Fatal msg, w4) => (Fatal msg, w4)
                end
            | (Fatal msg, w3) => (Fatal msg, w3)
            end
        | (Val (Some e), w2) => (Val (Some e), w2)
        | (Fatal msg, w2) => (Fatal msg, w2)
        end
    | (Val (Some e), w1) => (Val (Some e), w1)
    | (Fatal msg, w1) => (Fatal msg, w1)
    end.
Proof.
  unfold ecr.run, ecr.credentialSetup, ecr.repositoryEnsure, ecr.lifecyclePolicyUpload,
    ecr.repositoryPolicyUpload, ecr.delegate, bind, ret, logrus_Fatal.
  repeat match goal with
         | |- context [match ?x with _ => _ end] => destruct x
         end; reflexivity.
Qed.

Lemma preserves_createDockerConfig {X : Type} (obs : World → X)
    (dockerUsername dockerPassword accessKey secretKey registry : string) (noPush : bool) :
  env_blind obs →
  preserves obs
    (createDockerConfig dockerUsername dockerPassword accessKey secretKey registry noPush).
Proof. intros Henv. unfold ecr.createDockerConfig. frame. Qed.

Lemma preserves_credentialSetup {X : Type} (obs : World → X) (c : ecr.Context) :
  call_blind obs → env_blind obs → file_blind obs → preserves obs (credentialSetup c).
Proof.
  intros Hcall Henv Hfile. unfold ecr.credentialSetup.
  apply preserves_bind; [by apply preserves_createDockerConfig|].
  intros [dockerConfig [e|]]; [apply preserves_ret|].
  destruct (json_Marshal dockerConfig) as [jsonBytes [e|]]; [apply preserves_ret|].
  by apply preserves_ioutil_WriteFile.
Qed.

Lemma run_frame_after_setup {X : Type} (obs : World → X) (c : ecr.Context) (w : World) :
  (∀ call w', obs (record_call call w') = obs w') →
  obs (run c w).2 = obs (credentialSetup c w).2.
Proof.
  intros Hall. assert (call_blind obs) as Hcall by (intros call w' _; apply Hall).
  rewrite run_steps.
  destruct (credentialSetup c w) as [[[e|]|msg] w1]; [done| |done].
  pose proof (preserves_repositoryEnsure obs Hcall c w1) as P2.
  destruct (ecr.repositoryEnsure c w1) as [[[e|]|msg] w2]; [done| |done].
  pose proof (preserves_lifecyclePolicyUpload obs Hcall c w2) as P3.
  destruct (ecr.lifecyclePolicyUpload c w2) as [[[]|msg] w3]; simpl in *; [|congruence].
  pose proof (preserves_repositoryPolicyUpload obs Hcall c w3) as P4.
  destruct (ecr.repositoryPolicyUpload c w3) as [[[]|msg] w4]; simpl in *; [|congruence].
  rewrite Hall. congruence.
Qed.




Lemma run_no_registry (c : ecr.Context) (w : World) :
  ecr.no_push c = false ∨ ecr.access_key c ≠ "" → ecr.registry c = "" →
  run c w = (Val (Some (fmt_Errorf "registry must be specified")), w).
Proof.
  intros Hgate Hreg. unfold ecr.run. unfold bind at 1.
  rewrite Hreg. by rewrite createDockerConfig_no_registry.
Qed.

Section exit_status.
Variable godotenv_Load : string → M (option error).
Variable parse_args : World → cli.Invocation ecr.Context.

Local Abbreviation main := (ecr.main RegistryV1 json_Marshal godotenv_Load parse_args).

Lemma main_of_action (c : ecr.Context) (w : World) :
  cli.os_Getenv "PLUGIN_ENV_FILE" w = "" → parse_args w = cli.Action c →
  main w =
    match run c w with
    | (Val answer, w') => (status_of answer, w')
    | (Fatal _, w') => (1%Z, w')
    end.
Proof.
  intros Henv Hparse. unfold ecr.main. rewrite Henv.
  destruct (decide ("" ≠ "")) as [Hne|_]; [by destruct Hne|].
  rewrite Hparse. unfold cli.App_Run, status_of.
  destruct (run c w) as [[[err|]|msg] w']; [|done|done].
  by destruct (cli.ExitCode err).
Qed.

(** C5: [createDockerConfig] performs the auth setup exactly when a push
    is requested or an access key is supplied.  Without either it returns
    the static config and leaves the world as it was.  With one of them
    and an empty registry host it fails with the configuration error
    "registry must be specified" and leaves the world as it was, so the
    run returns that error before any call is made and the process exits
    with status 1; with a registry host it exports both keys when both
    are supplied and returns the config with the two credential-helper
    bindings, or fails with the error of the export. *)
Theorem auth_setup_gate
    (dockerUsername dockerPassword accessKey secretKey registry : string)
    (noPush : bool) (w : World) :
  let r := createDockerConfig dockerUsername dockerPassword accessKey secretKey
             registry noPush w in
  (auth_setup_performed accessKey secretKey registry w r
   ↔ noPush = false ∨ accessKey ≠ "")
  ∧ (noPush = true → accessKey = "" →
     r = (Val (Some (static_config dockerUsername dockerPassword), None), w))
  ∧ (noPush = false ∨ accessKey ≠ "" → registry = "" →
     r = (Val (None, Some (fmt_Errorf "registry must be specified")), w))
  ∧ (noPush = false ∨ accessKey ≠ "" → registry ≠ "" →
     r = if bool_decide (accessKey ≠ "") && bool_decide (secretKey ≠ "") then
           if has_byte Ascii.zero accessKey then
             (Val (None,
                   Some (wrapped "failed to set AWS_ACCESS_KEY_ID environment variable"
                           (SyscallError "setenv" "EINVAL"))), w)
           else if has_byte Ascii.zero secretKey then
             (Val (None,
                   Some (wrapped "failed to set AWS_SECRET_ACCESS_KEY environment variable"
                           (SyscallError "setenv" "EINVAL"))),
              set_environ (insert "AWS_ACCESS_KEY_ID" accessKey) w)
           else
             (Val (Some (docker.SetCredHelper registry "ecr-login"
                           (docker.SetCredHelper "public.ecr.aws" "ecr-login"
                              (static_config dockerUsername dockerPassword))), None),
              set_environ (insert "AWS_SECRET_ACCESS_KEY" secretKey)
                (set_environ (insert "AWS_ACCESS_KEY_ID" accessKey) w))
         else
           (Val (Some (docker.SetCredHelper registry "ecr-login"
                         (docker.SetCredHelper "public.ecr.aws" "ecr-login"
                            (static_config dockerUsername dockerPassword))), None), w))
  ∧ (∀ c, ecr.no_push c = false ∨ ecr.access_key c ≠ "" → ecr.registry c = "" →
       run c w = (Val (Some (fmt_Errorf "registry must be specified")), w)
       ∧ calls_of (run c) w = []
       ∧ (cli.os_Getenv "PLUGIN_ENV_FILE" w = "" → parse_args w = cli.Action c →
          main w = (1%Z, w))).
Proof.
  intros r. subst r.
  split; [|split; [|split; [|split]]].
  - unfold auth_setup_performed. split.
    + intros Hdone. destruct noPush; [|by left].
      destruct (decide (accessKey = "")) as [->|Hkey]; [|by right].
      rewrite createDockerConfig_skipped in Hdone by done.
      destruct (decide (registry = "")) as [_|_]; [discriminate Hdone|].
      simpl in Hdone. destruct Hdone as (c & Hc & Hlook & _).
      injection Hc as <-.
      destruct (static_config_lookup dockerUsername dockerPassword ecr.ecrPublicDomain)
        as [E|E]; rewrite E in Hlook; discriminate Hlook.
    + intros Hgate. destruct (decide (registry = "")) as [->|Hreg].
      { by apply createDockerConfig_no_registry. }
      rewrite createDockerConfig_setup by done.
      destruct (bool_decide (accessKey ≠ "") && bool_decide (secretKey ≠ "")); simpl.
      * destruct (has_byte Ascii.zero accessKey); simpl; [by eexists|].
        destruct (has_byte Ascii.zero secretKey); simpl; [by eexists|].
        eexists. split; [done|]. split; [apply helper_config_lookup|].
        split; [apply helper_config_lookup|done].
      * eexists. split; [done|]. split; [apply helper_config_lookup|].
        split; [apply helper_config_lookup|done].
  - intros. by apply createDockerConfig_skipped.
  - intros Hgate ->. by apply createDockerConfig_no_registry.
  - intros Hgate Hreg. by apply createDockerConfig_setup.
  - intros c Hgate Hreg. pose proof (run_no_registry c w Hgate Hreg) as E.
    split; [done|]. split.
    + apply calls_of_unchanged. by rewrite E.
    + intros Henv Hparse. rewrite (main_of_action c w Henv Hparse). by rewrite E.
Qed.

End exit_status.

(** Closes the cases of a run in which a step before the hand-over
    failed: the count of hand-overs is as before, and the steps' results
    contradict a successful bootstrap. *)
Ltac bootstrap_failed :=
  simpl; split; [lia|]; split;
    [ split; [lia | intros (?&?&?&?&?&?&?&?); congruence]
    | intros _; split; [lia | done] ].

(** C8: a run hands over to the executor at most once, and it does so
    exactly when the bootstrap succeeded, that is when the credential
    setup, the gated creation of the repository and the requested policy
    uploads all ran without an error; when one of them fails the run ends
    with a failure and the executor is never invoked. *)
Theorem run_delegates_after_bootstrap (c : ecr.Context) (w : World) :
  (executed (run c w).2 ≤ executed w + 1)%nat
  ∧ (executed (run c w).2 = executed w + 1 ↔ bootstrap_succeeds c w)
  ∧ (¬ bootstrap_succeeds c w →
     executed (run c w).2 = executed w ∧ (run c w).1 ≠ Val None).
Proof.
  rewrite run_steps. unfold ecr.bootstrap_succeeds.
  pose proof (preserves_credentialSetup executed c executed_call_blind
                executed_env_blind executed_file_blind w) as P1.
  destruct (credentialSetup c w) as [[[e|]|msg] w1] eqn:E1; simpl in P1;
    [bootstrap_failed| |bootstrap_failed].
  pose proof (preserves_repositoryEnsure executed executed_call_blind c w1) as P2.
  destruct (ecr.repositoryEnsure c w1) as [[[e|]|msg] w2] eqn:E2; simpl in P2;
    [bootstrap_failed| |bootstrap_failed].
  pose proof (preserves_lifecyclePolicyUpload executed executed_call_blind c w2) as P3.
  destruct (ecr.lifecyclePolicyUpload c w2) as [[[]|msg] w3] eqn:E3; simpl in P3;
    [|bootstrap_failed].
  pose proof (preserves_repositoryPolicyUpload executed executed_call_blind c w3) as P4.
  destruct (ecr.repositoryPolicyUpload c w3) as [[[]|msg] w4] eqn:E4; simpl in P4;
    [|bootstrap_failed].
  assert (executed (ecr.delegate c w4).2 = executed w + 1) as P5.
  { unfold ecr.delegate, invoke. simpl. rewrite executed_record_call. simpl. lia. }
  split; [lia|]. split.
  - split; [intros _; by exists w1, w2, w3, w4 | done].
  - intros Hfail. destruct Hfail. by exists w1, w2, w3, w4.
Qed.

End ecr_properties.

Lemma createDockerConfig_binds_helper_witness :
  ∃ c w',
    ecr.createDockerConfig sample.RegistryV1 "" "" "AKIAEXAMPLE" "wJalrEXAMPLEKEY"
      "123.dkr.ecr.us-east-1.amazonaws.com" false sample.quiet = (Val (Some c, None), w')
    ∧ c !! "public.ecr.aws" = Some (docker.CredHelper "ecr-login")
    ∧ c !! "123.dkr.ecr.us-east-1.amazonaws.com" = Some (docker.CredHelper "ecr-login").
Proof.
  destruct (createDockerConfig_binds_helper sample.RegistryV1 "" "" "AKIAEXAMPLE"
              "wJalrEXAMPLEKEY" "123.dkr.ecr.us-east-1.amazonaws.com" false sample.quiet
              (or_introl eq_refl)) as [Hbind Hreturns].
  destruct (Hreturns ltac:(discriminate) eq_refl eq_refl) as (c & w' & E).
  exists c, w'. split; [exact E | exact (proj2 (Hbind c w' E))].
Defined.



Lemma auth_setup_gate_witness :
  let c := sample.ecr_flags "" "app" "" "" "" false false None None in
  (ecr.run sample.RegistryV1 sample.json_Marshal c sample.registry
     = (Val (Some (fmt_Errorf "registry must be specified")), sample.registry)
   ∧ calls_of (ecr.run sample.RegistryV1 sample.json_Marshal c) sample.registry = []
   ∧ ecr.main sample.RegistryV1 sample.json_Marshal sample.godotenv_Load
       (λ _, cli.Action c) sample.registry = (1%Z, sample.registry))
  ∧ auth_setup_performed "AKIAEXAMPLE" "wJalrEXAMPLEKEY"
      "123.dkr.ecr.us-east-1.amazonaws.com" sample.quiet
      (ecr.createDockerConfig sample.RegistryV1 "" "" "AKIAEXAMPLE" "wJalrEXAMPLEKEY"
         "123.dkr.ecr.us-east-1.amazonaws.com" true sample.quiet).
Proof.
  intros c. split.
  - destruct (proj2 (proj2 (proj2 (proj2
                (auth_setup_gate sample.RegistryV1 sample.json_Marshal
                   sample.godotenv_Load (λ _, cli.Action c)
                   "" "" "" "" "" false sample.registry))))
              c (or_introl eq_refl) eq_refl) as (Hrun & Hcalls & Hmain).
    split; [exact Hrun|]. split; [exact Hcalls|]. exact (Hmain eq_refl eq_refl).
  - apply (proj1 (auth_setup_gate sample.RegistryV1 sample.json_Marshal
                    sample.godotenv_Load (λ _, cli.Action c)
                    "" "" "AKIAEXAMPLE" "wJalrEXAMPLEKEY"
                    "123.dkr.ecr.us-east-1.amazonaws.com" true sample.quiet)).
    right. discriminate.
Defined.

(** The scenario of a push to a private registry in which the repository
    is already present: the credential document is written, the
    repository step reports no error, the executor runs once and the
    exit status is 0. *)
Example run_repository_present :
  let c := sample.ecr_flags "123.dkr.ecr.us-east-1.amazonaws.com" "app" "" "" ""
             false true None None in
  let w := mkWorld ∅ ∅ [ecr_CreateRepository "us-east-1" "app"] (respond sample.registry) in
  calls_of (ecr.run sample.RegistryV1 sample.json_Marshal c) w
    = [WriteFile ecr.dockerConfigPath
         "123.dkr.ecr.us-east-1.amazonaws.com helper ecr-login; public.ecr.aws helper ecr-login";
       LoadDefaultConfig "us-east-1";
       ecr_CreateRepository "us-east-1" "app";
       Exec (ecr.plugin_of c)]
  ∧ answer_after_config "us-east-1" (ecr_CreateRepository "us-east-1" "app")
      (ecr.credentialSetup sample.RegistryV1 sample.json_Marshal c w).2
    = Some sample.already_exists
  ∧ (ecr.repositoryEnsure c
       (ecr.credentialSetup sample.RegistryV1 sample.json_Marshal c w).2).1 = Val None
  ∧ (ecr.main sample.RegistryV1 sample.json_Marshal sample.godotenv_Load
       (λ _, cli.Action c) w).1 = 0%Z.
Proof. vm_compute. done. Qed.

(** ** The GCR plugin *)

Lemma setupGCRAuth_written (jsonKey : string) (w : World) :
  respond w (history w) (WriteFile gcr.gcrKeyPath jsonKey) = None →
  gcr.setupGCRAuth jsonKey w =
    (Val None,
     set_environ (insert gcr.gcrEnvVariable gcr.gcrKeyPath)
       (set_files (insert gcr.gcrKeyPath jsonKey)
          (record_call (WriteFile gcr.gcrKeyPath jsonKey) w))).
Proof.
  intros Hwrite. unfold gcr.setupGCRAuth, ioutil_WriteFile, bind, invoke. simpl.
  rewrite Hwrite. reflexivity.
Qed.

Lemma setupGCRAuth_not_written (jsonKey : string) (w : World) (e : error) :
  respond w (history w) (WriteFile gcr.gcrKeyPath jsonKey) = Some e →
  gcr.setupGCRAuth jsonKey w =
    (Val (Some (wrapped "failed to write GCR JSON key" e)),
     record_call (WriteFile gcr.gcrKeyPath jsonKey) w).
Proof.
  intros Hwrite. unfold gcr.setupGCRAuth, ioutil_WriteFile, bind, invoke. simpl.
  rewrite Hwrite. reflexivity.
Qed.

Lemma gcr_run_without_key (c : gcr.Context) (w : World) :
  gcr.json_key c = "" →
  gcr.run c w = invoke (Exec (gcr.plugin_of c)) w.
Proof.
  intros Hkey. unfold gcr.run. rewrite Hkey.
  destruct (decide ("" ≠ "")) as [Hne|_]; [by destruct Hne|]. reflexivity.
Qed.

Lemma gcr_run_with_key (c : gcr.Context) (w : World) :
  gcr.json_key c ≠ "" →
  gcr.run c w =
    match gcr.setupGCRAuth (gcr.json_key c) w with
    | (Val None, w') => invoke (Exec (gcr.plugin_of c)) w'
    | (Val (Some e), w') => (Val (Some e), w')
    | (Fatal msg, w') => (Fatal msg, w')
    end.
Proof.
  intros Hkey. unfold gcr.run.
  destruct (decide (gcr.json_key c ≠ "")) as [_|Hno]; [|by destruct Hno].
  unfold bind. by destruct (gcr.setupGCRAuth _ w) as [[[e|]|msg] w'].
Qed.

(** C10: in the GCR plugin the auth setup is performed exactly when the
    JSON key is not empty, whatever the no-push flag says.  With an empty
    key the run writes no file and sets no environment variable: its only
    call is the hand-over to the executor.  With a key the run first
    writes it to the fixed key-file path; when that write succeeds the file
    holds the key and GOOGLE_APPLICATION_CREDENTIALS points at it before
    the hand-over, and when it fails the run returns the wrapped error. *)
Theorem gcr_auth_setup_iff_json_key (c : gcr.Context) (w : World) :
  (WriteFile gcr.gcrKeyPath (gcr.json_key c) ∈ calls_of (gcr.run c) w
   ↔ gcr.json_key c ≠ "")
  ∧ (gcr.json_key c = "" →
     calls_of (gcr.run c) w = [Exec (gcr.plugin_of c)]
     ∧ files (gcr.run c w).2 = files w
     ∧ environ (gcr.run c w).2 = environ w)
  ∧ (gcr.json_key c ≠ "" →
     match respond w (history w) (WriteFile gcr.gcrKeyPath (gcr.json_key c)) with
     | None =>
         calls_of (gcr.run c) w =
           [WriteFile gcr.gcrKeyPath (gcr.json_key c); Exec (gcr.plugin_of c)]
         ∧ files (gcr.run c w).2 = <[gcr.gcrKeyPath := gcr.json_key c]> (files w)
         ∧ environ (gcr.run c w).2 = <[gcr.gcrEnvVariable := gcr.gcrKeyPath]> (environ w)
     | Some e =>
         gcr.run c w =
           (Val (Some (wrapped "failed to write GCR JSON key" e)),
            record_call (WriteFile gcr.gcrKeyPath (gcr.json_key c)) w)
     end)
  ∧ (∀ c', gcr.json_key c' = gcr.json_key c →
       (WriteFile gcr.gcrKeyPath (gcr.json_key c') ∈ calls_of (gcr.run c') w
        ↔ WriteFile gcr.gcrKeyPath (gcr.json_key c) ∈ calls_of (gcr.run c) w)).
Proof.
  assert (∀ c0, gcr.json_key c0 = "" →
     calls_of (gcr.run c0) w = [Exec (gcr.plugin_of c0)]
     ∧ files (gcr.run c0 w).2 = files w
     ∧ environ (gcr.run c0 w).2 = environ w) as Hempty.
  { intros c0 Hkey. split.
    - apply calls_of_app. by rewrite gcr_run_without_key.
    - by rewrite gcr_run_without_key. }
  assert (∀ c0, gcr.json_key c0 ≠ "" →
     match respond w (history w) (WriteFile gcr.gcrKeyPath (gcr.json_key c0)) with
     | None =>
         calls_of (gcr.run c0) w =
           [WriteFile gcr.gcrKeyPath (gcr.json_key c0); Exec (gcr.plugin_of c0)]
         ∧ files (gcr.run c0 w).2 = <[gcr.gcrKeyPath := gcr.json_key c0]> (files w)
         ∧ environ (gcr.run c0 w).2 = <[gcr.gcrEnvVariable := gcr.gcrKeyPath]> (environ w)
     | Some e =>
         gcr.run c0 w =
           (Val (Some (wrapped "failed to write GCR JSON key" e)),
            record_call (WriteFile gcr.gcrKeyPath (gcr.json_key c0)) w)
     end) as Hkeyed.
  { intros c0 Hkey. pose proof (gcr_run_with_key c0 w Hkey) as Hrun.
    destruct (respond w (history w) (WriteFile gcr.gcrKeyPath (gcr.json_key c0)))
      as [e|] eqn:Hwrite.
    - by rewrite (setupGCRAuth_not_written _ _ e) in Hrun.
    - rewrite setupGCRAuth_written in Hrun by done.
      split; [|by rewrite Hrun]. apply calls_of_app. rewrite Hrun. simpl.
      by rewrite <- app_assoc. }
  assert (∀ c0, WriteFile gcr.gcrKeyPath (gcr.json_key c0) ∈ calls_of (gcr.run c0) w
                ↔ gcr.json_key c0 ≠ "") as Hiff.
  { intros c0. split.
    - intros Hin Hkey. destruct (Hempty c0 Hkey) as [Hcalls _].
      rewrite Hcalls in Hin. apply list_elem_of_singleton in Hin. discriminate Hin.
    - intros Hkey. specialize (Hkeyed c0 Hkey).
      destruct (respond w (history w) (WriteFile gcr.gcrKeyPath (gcr.json_key c0)))
        as [e|].
      + erewrite calls_of_app; [apply list_elem_of_here|]. by rewrite Hkeyed.
      + destruct Hkeyed as [-> _]. apply list_elem_of_here. }
  split; [apply Hiff|]. split; [apply Hempty|]. split; [apply Hkeyed|].
  intros c' Heq. rewrite !Hiff. by rewrite Heq.
Qed.

(** A run with a key and push suppressed, one without a key and with
    push, and one in which the key file cannot be written. *)
Example gcr_runs :
  calls_of (gcr.run (sample.gcr_flags "{key}" true)) sample.quiet
    = [WriteFile "/kaniko/config.json" "{key}"; Exec (gcr.plugin_of (sample.gcr_flags "{key}" true))]
  ∧ environ (gcr.run (sample.gcr_flags "{key}" true) sample.quiet).2
      !! "GOOGLE_APPLICATION_CREDENTIALS" = Some "/kaniko/config.json"
  ∧ calls_of (gcr.run (sample.gcr_flags "" false)) sample.quiet
    = [Exec (gcr.plugin_of (sample.gcr_flags "" false))]
  ∧ (gcr.run (sample.gcr_flags "{key}" false) sample.read_only).1
    = Val (Some (wrapped "failed to write GCR JSON key" (PathError "open" "/kaniko" "EROFS")))
  ∧ executed (gcr.run (sample.gcr_flags "{key}" false) sample.read_only).2 = 0.
Proof. vm_compute. done. Qed.

(** * Further properties of the plugins *)

(** ** Rules for the calls a computation makes *)

Section emits.
Context (Q : Call → Prop).

Lemma emits_silent {A : Type} (m : M A) :
  (∀ w, history (m w).2 = history w) → emits Q m.
Proof. intros H w. exists []. by rewrite H, app_nil_r. Qed.

Lemma emits_ret {A : Type} (a : A) : emits Q (ret a).
Proof. by apply emits_silent. Qed.

Lemma emits_logrus_Fatal {A : Type} (msg : string) : emits Q (logrus_Fatal (A:=A) msg).
Proof. by apply emits_silent. Qed.

Lemma emits_os_Setenv (key value : string) : emits Q (os_Setenv key value).
Proof. apply emits_silent. by apply (preserves_os_Setenv history). Qed.

Lemma emits_store_file (path data : string) : emits Q (store_file path data).
Proof. by apply emits_silent. Qed.

Lemma emits_ioutil_ReadFile (path : string) : emits Q (ioutil_ReadFile path).
Proof. apply emits_silent. apply (preserves_ioutil_ReadFile history). Qed.

Lemma emits_invoke (c : Call) : Q c → emits Q (invoke c).
Proof. intros Hc w. exists [c]. split; [done|]. by apply Forall_singleton. Qed.

Lemma emits_bind {A B : Type} (m : M A) (f : A → M B) :
  emits Q m → (∀ a, emits Q (f a)) → emits Q (bind m f).
Proof.
  intros Hm Hf w. unfold bind. destruct (Hm w) as (l1 & E1 & H1).
  destruct (m w) as [[a|msg] w1]; simpl in *.
  - destruct (Hf a w1) as (l2 & E2 & H2). exists (l1 ++ l2).
    rewrite E2, E1, <- app_assoc. split; [done|]. by apply Forall_app.
  - by exists l1.
Qed.

Lemma emits_ext {A : Type} (m m' : M A) :
  (∀ w, m w = m' w) → emits Q m' → emits Q m.
Proof. intros Heq Hm w. rewrite Heq. apply Hm. Qed.

Lemma emits_calls_of {A : Type} (m : M A) (w : World) :
  emits Q m → Forall Q (calls_of m w).
Proof. intros Hm. destruct (Hm w) as (l & E & H). by rewrite (calls_of_app m w l E). Qed.

End emits.

(** Decomposes a goal on the calls of a computation along its structure,
    keeping the equations of the branches it enters. *)
Ltac emits :=
  repeat lazymatch goal with
    | |- emits _ (ret _) => apply emits_ret
    | |- emits _ (logrus_Fatal _) => apply emits_logrus_Fatal
    | |- emits _ (ioutil_ReadFile _) => apply emits_ioutil_ReadFile
    | |- emits _ (bind _ _) => apply emits_bind; [|intros ?]
    | |- emits _ (match ?x with _ => _ end) => destruct x eqn:?
    end.

Section more_ecr_properties.
Variable RegistryV1 : string.
Variable json_Marshal : option docker.Config → string * option error.

Local Abbreviation createDockerConfig := (ecr.createDockerConfig RegistryV1).
Local Abbreviation static_config := (ecr.static_config RegistryV1).
Local Abbreviation run := (ecr.run RegistryV1 json_Marshal).
Local Abbreviation main := (ecr.main RegistryV1 json_Marshal).
Local Abbreviation credentialSetup := (ecr.credentialSetup RegistryV1 json_Marshal).

Lemma emits_createDockerConfig (Q : Call → Prop)
    (dockerUsername dockerPassword accessKey secretKey registry : string) (noPush : bool) :
  emits Q (createDockerConfig dockerUsername dockerPassword accessKey secretKey
             registry noPush).
Proof.
  apply emits_silent. apply (preserves_createDockerConfig RegistryV1 history).
  by intros f w.
Qed.

Lemma preserves_createDockerConfig_variable (k : string)
    (dockerUsername dockerPassword accessKey secretKey registry : string) (noPush : bool) :
  k ≠ ecr.accessKeyEnv → k ≠ ecr.secretKeyEnv →
  preserves (λ w, environ w !! k)
    (createDockerConfig dockerUsername dockerPassword accessKey secretKey registry noPush).
Proof.
  intros Hak Hsk.
  assert (∀ key value, key ≠ k → preserves (λ w, environ w !! k) (os_Setenv key value))
    as Hset.
  { intros key value Hkey w. unfold os_Setenv.
    destruct (decide (key = "")); [done|]. destruct (_ || _); [done|].
    simpl. by rewrite lookup_insert_ne. }
  unfold ecr.createDockerConfig. frame; by apply Hset.
Qed.

(** ** More on [createDockerConfig] *)

Lemma setup_gate_cases (noPush : bool) (accessKey : string) :
  (noPush = true ∧ accessKey = "" ∧ negb noPush || bool_decide (accessKey ≠ "") = false)
  ∨ ((noPush = false ∨ accessKey ≠ "")
     ∧ negb noPush || bool_decide (accessKey ≠ "") = true).
Proof.
  destruct noPush; [|right; split; [by left|done]].
  destruct (decide (accessKey = "")) as [->|Hkey]; [by left|].
  right. split; [by right|]. by apply setup_gate_open; right.
Qed.

Lemma createDockerConfig_returns_config
    (dockerUsername dockerPassword accessKey secretKey registry : string)
    (noPush : bool) (w w' : World) (c : docker.Config) :
  createDockerConfig dockerUsername dockerPassword accessKey secretKey registry noPush w
    = (Val (Some c, None), w') →
  (noPush = true ∧ accessKey = "" ∧ w' = w
   ∧ c = static_config dockerUsername dockerPassword)
  ∨ ((noPush = false ∨ accessKey ≠ "") ∧ registry ≠ ""
     ∧ c = helper_config registry (static_config dockerUsername dockerPassword)
     ∧ w' = if bool_decide (accessKey ≠ "") && bool_decide (secretKey ≠ "")
            then set_environ (insert ecr.secretKeyEnv secretKey)
                   (set_environ (insert ecr.accessKeyEnv accessKey) w)
            else w).
Proof.
  intros H. destruct (setup_gate_cases noPush accessKey) as [(Hp & Hk & _)|[Hgate _]].
  - left. rewrite (createDockerConfig_skipped RegistryV1) in H by done.
    by simplify_eq.
  - right. destruct (decide (registry = "")) as [->|Hreg].
    { rewrite (createDockerConfig_no_registry RegistryV1) in H by done. discriminate H. }
    rewrite (createDockerConfig_setup RegistryV1) in H by done.
    split; [done|]. split; [done|].
    destruct (_ && _); [|by simplify_eq].
    destruct (has_byte Ascii.zero accessKey); [discriminate H|].
    destruct (has_byte Ascii.zero secretKey); [discriminate H|].
    by simplify_eq.
Qed.

(** When [createDockerConfig] returns a config, it has exported the
    access key and the secret key as AWS_ACCESS_KEY_ID and
    AWS_SECRET_ACCESS_KEY exactly when both are non-empty; otherwise the
    environment is as it was. *)
Theorem createDockerConfig_exports_keys
    (dockerUsername dockerPassword accessKey secretKey registry : string)
    (noPush : bool) (w w' : World) (c : docker.Config) :
  createDockerConfig dockerUsername dockerPassword accessKey secretKey registry noPush w
    = (Val (Some c, None), w') →
  environ w' =
    if bool_decide (accessKey ≠ "") && bool_decide (secretKey ≠ "")
    then <["AWS_SECRET_ACCESS_KEY" := secretKey]>
           (<["AWS_ACCESS_KEY_ID" := accessKey]> (environ w))
    else environ w.
Proof.
  intros H. apply createDockerConfig_returns_config in H.
  destruct H as [(_ & -> & -> & _)|(_ & _ & _ & ->)]; [done|].
  by destruct (_ && _).
Qed.

(** [createDockerConfig] makes no call and touches no file, whatever its
    arguments are and whether it fails or not. *)
Theorem createDockerConfig_no_io
    (dockerUsername dockerPassword accessKey secretKey registry : string)
    (noPush : bool) (w : World) :
  let r := createDockerConfig dockerUsername dockerPassword accessKey secretKey
             registry noPush w in
  calls_of (createDockerConfig dockerUsername dockerPassword accessKey secretKey
              registry noPush) w = []
  ∧ history r.2 = history w
  ∧ files r.2 = files w.
Proof.
  assert (history (createDockerConfig dockerUsername dockerPassword accessKey secretKey
                     registry noPush w).2 = history w) as Hhist.
  { by apply (preserves_createDockerConfig RegistryV1 history). }
  split; [|split].
  - apply calls_of_app. by rewrite Hhist, app_nil_r.
  - exact Hhist.
  - by apply (preserves_createDockerConfig RegistryV1 files).
Qed.

Lemma dom_static_config (dockerUsername dockerPassword : string) :
  dom (static_config dockerUsername dockerPassword) =
    if decide (dockerUsername ≠ "") then {[RegistryV1]} else (∅ : gset string).
Proof.
  unfold ecr.static_config, docker.SetAuth, docker.NewConfig.
  destruct (decide (dockerUsername ≠ "")); [|apply dom_empty_L].
  rewrite dom_insert_L, dom_empty_L. apply (right_id_L ∅ (∪)).
Qed.

(** The hosts of a config [createDockerConfig] returns are exactly the
    default registry entry when a user name is supplied, and the
    public-registry domain and the target host when a push is requested
    or an access key is supplied: no other host is bound. *)
Theorem createDockerConfig_bound_hosts
    (dockerUsername dockerPassword accessKey secretKey registry : string)
    (noPush : bool) (w w' : World) (c : docker.Config) :
  createDockerConfig dockerUsername dockerPassword accessKey secretKey registry noPush w
    = (Val (Some c, None), w') →
  dom c = bound_hosts RegistryV1 dockerUsername accessKey registry noPush.
Proof.
  intros H. apply createDockerConfig_returns_config in H. unfold bound_hosts.
  destruct H as [(-> & -> & _ & ->)|(Hgate & _ & -> & _)].
  - rewrite dom_static_config. simpl. apply symmetry, (right_id_L ∅ (∪)).
  - rewrite (setup_gate_open _ _ Hgate).
    unfold helper_config, docker.SetCredHelper.
    rewrite !dom_insert_L, dom_static_config.
    apply set_eq. intros host. rewrite !elem_of_union. tauto.
Qed.

(** A key with a NUL byte cannot be exported: [createDockerConfig] then
    returns no config but the wrapped error of [os.Setenv].  When it is
    the access key nothing is exported; when it is the secret key the
    access key stays exported. *)
Theorem createDockerConfig_export_fails
    (dockerUsername dockerPassword accessKey secretKey registry : string)
    (noPush : bool) (w : World) :
  registry ≠ "" → accessKey ≠ "" → secretKey ≠ "" →
  (has_byte Ascii.zero accessKey = true →
   createDockerConfig dockerUsername dockerPassword accessKey secretKey registry noPush w
     = (Val (None, Some (wrapped "failed to set AWS_ACCESS_KEY_ID environment variable"
                           (SyscallError "setenv" "EINVAL"))), w))
  ∧ (has_byte Ascii.zero accessKey = false → has_byte Ascii.zero secretKey = true →
     createDockerConfig dockerUsername dockerPassword accessKey secretKey registry noPush w
       = (Val (None, Some (wrapped "failed to set AWS_SECRET_ACCESS_KEY environment variable"
                             (SyscallError "setenv" "EINVAL"))),
          set_environ (insert "AWS_ACCESS_KEY_ID" accessKey) w)).
Proof.
  intros Hreg Hak Hsk.
  pose proof (createDockerConfig_setup RegistryV1 dockerUsername dockerPassword
                accessKey secretKey registry noPush w (or_intror Hak) Hreg) as E.
  rewrite !bool_decide_eq_true_2 in E by done. simpl in E.
  split.
  - intros Hnul. by rewrite Hnul in E.
  - intros Hnul1 Hnul2. by rewrite Hnul1, Hnul2 in E.
Qed.

(** ** More on the calls to AWS *)

Lemma createRepository_config_fails (region repo registry : string) (w : World) (e : error) :
  registry ≠ "" → repo ≠ "" → config_answer region w = Some e →
  ecr.createRepository region repo registry w =
    (Val (Some (wrapped "failed to load aws config" e)),
     record_call (LoadDefaultConfig region) w).
Proof.
  intros Hreg Hrepo Hcfg. unfold ecr.createRepository.
  destruct (decide (registry = "")) as [|_]; [done|].
  destruct (decide (repo = "")) as [|_]; [done|].
  step_M. by rewrite Hcfg.
Qed.

Lemma uploadLifeCyclePolicy_config_fails
    (region repo lifecyclePolicy : string) (w : World) (e : error) :
  config_answer region w = Some e →
  ecr.uploadLifeCyclePolicy region repo lifecyclePolicy w =
    (Val (Some (wrapped "failed to load aws config" e)),
     record_call (LoadDefaultConfig region) w).
Proof. intros Hcfg. unfold ecr.uploadLifeCyclePolicy. step_M. by rewrite Hcfg. Qed.

Lemma uploadRepositoryPolicy_config_fails
    (region repo registry repositoryPolicy : string) (w : World) (e : error) :
  config_answer region w = Some e →
  ecr.uploadRepositoryPolicy region repo registry repositoryPolicy w =
    (Val (Some (wrapped "failed to load aws config" e)),
     record_call (LoadDefaultConfig region) w).
Proof. intros Hcfg. unfold ecr.uploadRepositoryPolicy. step_M. by rewrite Hcfg. Qed.

(** When the SDK configuration cannot be loaded, [createRepository] (for
    a named repository and host), [uploadLifeCyclePolicy] and
    [uploadRepositoryPolicy] return the error wrapped as "failed to load
    aws config", and no registry operation is called. *)
Theorem aws_config_failure
    (region repo registry policyText : string) (w : World) (e : error) :
  config_answer region w = Some e →
  (registry ≠ "" → repo ≠ "" →
   ecr.createRepository region repo registry w =
     (Val (Some (wrapped "failed to load aws config" e)),
      record_call (LoadDefaultConfig region) w))
  ∧ ecr.uploadLifeCyclePolicy region repo policyText w =
      (Val (Some (wrapped "failed to load aws config" e)),
       record_call (LoadDefaultConfig region) w)
  ∧ ecr.uploadRepositoryPolicy region repo registry policyText w =
      (Val (Some (wrapped "failed to load aws config" e)),
       record_call (LoadDefaultConfig region) w)
  ∧ calls_of (ecr.uploadLifeCyclePolicy region repo policyText) w
      = [LoadDefaultConfig region]
  ∧ calls_of (ecr.uploadRepositoryPolicy region repo registry policyText) w
      = [LoadDefaultConfig region].
Proof.
  intros Hcfg.
  assert (ecr.uploadLifeCyclePolicy region repo policyText w =
            (Val (Some (wrapped "failed to load aws config" e)),
             record_call (LoadDefaultConfig region) w)) as Hlife.
  { by apply uploadLifeCyclePolicy_config_fails. }
  assert (ecr.uploadRepositoryPolicy region repo registry policyText w =
            (Val (Some (wrapped "failed to load aws config" e)),
             record_call (LoadDefaultConfig region) w)) as Hrepo.
  { by apply uploadRepositoryPolicy_config_fails. }
  split; [intros; by apply createRepository_config_fails|].
  split; [done|]. split; [done|]. split.
  - apply calls_of_app. by rewrite Hlife.
  - apply calls_of_app. by rewrite Hrepo.
Qed.

Lemma aws_config_failure_witness :
  ecr.createRepository "us-east-1" "app" "public.ecr.aws/myorg" sample.no_aws_config =
    (Val (Some (wrapped "failed to load aws config"
                  (errorString "failed to load shared config"))),
     record_call (LoadDefaultConfig "us-east-1") sample.no_aws_config)
  ∧ calls_of (ecr.uploadRepositoryPolicy "us-east-1" "app" "public.ecr.aws/myorg" "{}")
      sample.no_aws_config = [LoadDefaultConfig "us-east-1"].
Proof.
  destruct (aws_config_failure "us-east-1" "app" "public.ecr.aws/myorg" "{}"
              sample.no_aws_config (errorString "failed to load shared config") eq_refl)
    as (Hcreate & _ & _ & _ & Hcalls).
  split; [|exact Hcalls].
  apply Hcreate; discriminate.
Defined.

(** [createRepository] returns no error exactly when both names are
    given, the SDK configuration loads, and the backend's answer to the
    create call carries no API error code other than
    "RepositoryAlreadyExistsException".  It never ends the process, it
    makes at most the two calls [LoadDefaultConfig] and the create call, in
    this order, and an error it returns from the backend still carries
    the backend's API error code. *)
Theorem createRepository_succeeds_iff (region repo registry : string) (w : World) :
  let r := ecr.createRepository region repo registry w in
  let answer := answer_after_config region (create_call region repo registry) w in
  (r.1 = Val None ↔
     registry ≠ "" ∧ repo ≠ "" ∧ config_answer region w = None ∧
     ∀ code message,
       errors_As_APIError answer = Some (code, message) →
       code = "RepositoryAlreadyExistsException")
  ∧ (∃ err, r.1 = Val err)
  ∧ (calls_of (ecr.createRepository region repo registry) w = [] ∨
     calls_of (ecr.createRepository region repo registry) w = [LoadDefaultConfig region] ∨
     calls_of (ecr.createRepository region repo registry) w =
       [LoadDefaultConfig region; create_call region repo registry])
  ∧ (∀ e, registry ≠ "" → repo ≠ "" → config_answer region w = None →
       r.1 = Val (Some e) →
       answer ≠ None ∧ errors_As_APIError (Some e) = errors_As_APIError answer).
Proof.
  intros r answer. subst r answer.
  destruct (decide (repo = "" ∨ registry = "")) as [Hempty|Hnames].
  { rewrite (createRepository_missing_name _ _ _ _ Hempty). simpl.
    split; [|split; [by eexists|split]].
    - split; [done|]. intros (? & ? & _). by destruct Hempty.
    - left. apply calls_of_unchanged.
      by rewrite (createRepository_missing_name _ _ _ _ Hempty).
    - intros e ? ?. by destruct Hempty. }
  assert (registry ≠ "") as Hreg by (intros ->; apply Hnames; by right).
  assert (repo ≠ "") as Hrepo by (intros ->; apply Hnames; by left).
  destruct (config_answer region w) as [e|] eqn:Hcfg.
  { rewrite (createRepository_config_fails _ _ _ _ e) by done. simpl.
    split; [|split; [by eexists|split]].
    - split; [done|]. by intros (_ & _ & ? & _).
    - right; left. apply calls_of_app.
      by rewrite (createRepository_config_fails _ _ _ _ e).
    - done. }
  pose proof (createRepository_reaches_backend region repo registry w Hreg Hrepo Hcfg)
    as E.
  split; [|split; [|split]].
  - rewrite E. simpl.
    destruct (answer_after_config region (create_call region repo registry) w) as [e'|];
      simpl; [|by repeat split].
    destruct (As_APIError e') as [[code message]|]; simpl; [|by repeat split].
    unfold ErrorCode. simpl. destruct (decide (code ≠ _)) as [Hne|Heq]; simpl.
    + split; [discriminate|].
      intros (_ & _ & _ & Hcode). by destruct (Hne (Hcode code message eq_refl)).
    + split; [|done]. intros _. repeat split; try done.
      intros code' message' [= <- <-].
      by destruct (decide (code = "RepositoryAlreadyExistsException")).
  - rewrite E. by eexists.
  - right; right. apply calls_of_app. rewrite E. simpl. by rewrite <- app_assoc.
  - intros e _ _ _. rewrite E. simpl.
    destruct (answer_after_config region (create_call region repo registry) w) as [e'|];
      simpl; [|done].
    destruct (As_APIError e') as [[code message]|] eqn:Hapi; [|done].
    destruct (decide (ErrorCode _ ≠ _)); [|done].
    intros [= <-]. split; [done|]. simpl. by rewrite Hapi.
Qed.

Section emits_ecr.
Context (Q : Call → Prop).

Lemma emits_two_calls {A : Type} (m : M A) (c1 c2 : Call) :
  Q c1 → Q c2 →
  (∀ w, history (m w).2 = history w ∨
        history (m w).2 = history w ++ [c1] ∨
        history (m w).2 = history w ++ [c1; c2]) →
  emits Q m.
Proof.
  intros H1 H2 Hm w. destruct (Hm w) as [E|[E|E]].
  - exists []. by rewrite E, app_nil_r.
  - exists [c1]. split; [done|]. by apply Forall_singleton.
  - exists [c1; c2]. split; [done|]. by repeat constructor.
Qed.

Lemma emits_createRepository (region repo registry : string) :
  Q (LoadDefaultConfig region) → Q (create_call region repo registry) →
  emits Q (ecr.createRepository region repo registry).
Proof.
  intros HQ1 HQ2. apply (emits_two_calls _ _ _ HQ1 HQ2). intros w.
  destruct (decide (repo = "" ∨ registry = "")) as [Hempty|Hnames].
  { left. by rewrite (createRepository_missing_name _ _ _ _ Hempty). }
  assert (registry ≠ "") as Hreg by (intros ->; apply Hnames; by right).
  assert (repo ≠ "") as Hrepo by (intros ->; apply Hnames; by left).
  destruct (config_answer region w) as [e|] eqn:Hcfg.
  - right; left. by rewrite (createRepository_config_fails _ _ _ _ e).
  - right; right. rewrite createRepository_reaches_backend by done.
    simpl. by rewrite <- app_assoc.
Qed.

Lemma emits_uploadLifeCyclePolicy (region repo text : string) :
  Q (LoadDefaultConfig region) → Q (ecr_PutLifecyclePolicy region repo text) →
  emits Q (ecr.uploadLifeCyclePolicy region repo text).
Proof.
  intros HQ1 HQ2. apply (emits_two_calls _ _ _ HQ1 HQ2). intros w.
  destruct (config_answer region w) as [e|] eqn:Hcfg.
  - right; left. by rewrite (uploadLifeCyclePolicy_config_fails _ _ _ _ e).
  - right; right. rewrite uploadLifeCyclePolicy_config_loaded by done.
    simpl. by rewrite <- app_assoc.
Qed.

Lemma emits_uploadRepositoryPolicy (region repo registry text : string) :
  Q (LoadDefaultConfig region) →
  Q (if ecr.isRegistryPublic registry
     then ecrpublic_SetRepositoryPolicy region repo text
     else ecr_SetRepositoryPolicy region repo text) →
  emits Q (ecr.uploadRepositoryPolicy region repo registry text).
Proof.
  intros HQ1 HQ2. apply (emits_two_calls _ _ _ HQ1 HQ2). intros w.
  destruct (config_answer region w) as [e|] eqn:Hcfg.
  - right; left. by rewrite (uploadRepositoryPolicy_config_fails _ _ _ _ _ e).
  - right; right. rewrite uploadRepositoryPolicy_config_loaded by done.
    simpl. by rewrite <- app_assoc.
Qed.

Lemma emits_ioutil_WriteFile (path data : string) :
  Q (WriteFile path data) → emits Q (ioutil_WriteFile path data).
Proof.
  intros HQ. unfold ioutil_WriteFile. emits; try apply emits_store_file.
  by apply emits_invoke.
Qed.

Lemma emits_credentialSetup (c : ecr.Context) :
  (∀ data, Q (WriteFile ecr.dockerConfigPath data)) → emits Q (credentialSetup c).
Proof.
  intros HQ. unfold ecr.credentialSetup. emits.
  - apply emits_createDockerConfig.
  - by apply emits_ioutil_WriteFile.
Qed.

End emits_ecr.

(** ** More on [run] *)

Lemma run_bind_steps (c : ecr.Context) (w : World) :
  run c w =
    (err ← credentialSetup c;
     match err with
     | Some _ => ret err
     | None =>
         err ← ecr.repositoryEnsure c;
         match err with
         | Some _ => ret err
         | None =>
             _ ← ecr.lifecyclePolicyUpload c;
             _ ← ecr.repositoryPolicyUpload c;
             ecr.delegate c
         end
     end) w.
Proof.
  rewrite run_steps. unfold bind.
  destruct (credentialSetup c w) as [[[e|]|msg] w1]; [done| |done].
  destruct (ecr.repositoryEnsure c w1) as [[[e|]|msg] w2]; [done| |done].
  destruct (ecr.lifecyclePolicyUpload c w2) as [[[]|msg] w3]; [|done].
  by destruct (ecr.repositoryPolicyUpload c w3) as [[[]|msg] w4].
Qed.

Lemma run_emits_footprint (c : ecr.Context) : emits (ecr_footprint c) (run c).
Proof.
  eapply emits_ext; [apply run_bind_steps|]. emits.
  - by apply emits_credentialSetup.
  - unfold ecr.repositoryEnsure. emits.
    apply emits_createRepository; unfold create_call; simpl; [by auto|].
    by destruct (ecr.isRegistryPublic (ecr.registry c)) eqn:?.
  - unfold ecr.lifecyclePolicyUpload. emits.
    apply emits_uploadLifeCyclePolicy; simpl; eauto 6.
  - unfold ecr.repositoryPolicyUpload. emits.
    apply emits_uploadRepositoryPolicy; simpl; [eauto 6|].
    destruct (ecr.isRegistryPublic (ecr.registry c)) eqn:?; simpl; eauto 6.
  - by apply emits_invoke.
Qed.

(** Every call a run makes is the write of the credential document, a
    call to AWS that the flags ask for (the create call of the selected
    backend only when pushing with create-repository set, the lifecycle
    policy call only when a lifecycle policy is set, the set-policy call
    of the selected backend only when a repository policy is set, always
    for the configured region and repository), or the hand-over of the
    plugin descriptor built from the flags. *)
Theorem run_footprint (c : ecr.Context) (w : World) :
  Forall (ecr_footprint c) (calls_of (run c) w).
Proof. apply emits_calls_of, run_emits_footprint. Qed.

(** A run that does not create the repository (push suppressed or
    create-repository not set) and has no policy to upload never calls
    AWS, not even to load the SDK configuration, whatever credentials are
    supplied. *)
Theorem run_without_registry_work_avoids_aws (c : ecr.Context) (w : World) :
  ecr.no_push c = true ∨ ecr.create_repository c = false →
  ecr.lifecycle_policy c = None → ecr.repository_policy c = None →
  Forall (λ call, is_aws call = false) (calls_of (run c) w).
Proof.
  intros Hgate Hlife Hrepo.
  assert (negb (ecr.no_push c) && ecr.create_repository c = false) as Hclosed.
  { destruct Hgate as [->| ->]; [done|apply andb_false_r]. }
  eapply Forall_impl; [apply emits_calls_of, run_emits_footprint|].
  intros call Hcall. destruct call; simpl in *; try done.
  - destruct Hcall as [_ [H|[H|H]]].
    + congruence.
    + rewrite Hlife in H. by destruct H.
    + rewrite Hrepo in H. by destruct H.
  - destruct Hcall as (_ & _ & H & _). congruence.
  - destruct Hcall as (_ & _ & H & _). congruence.
  - destruct Hcall as (_ & _ & H). rewrite Hlife in H. by destruct H.
  - destruct Hcall as (_ & _ & H & _). rewrite Hrepo in H. by destruct H.
  - destruct Hcall as (_ & _ & H & _). rewrite Hrepo in H. by destruct H.
Qed.

(** A run changes no environment variable other than AWS_ACCESS_KEY_ID
    and AWS_SECRET_ACCESS_KEY. *)
Theorem run_environment_frame (c : ecr.Context) (w : World) (k : string) :
  k ≠ "AWS_ACCESS_KEY_ID" → k ≠ "AWS_SECRET_ACCESS_KEY" →
  environ (run c w).2 !! k = environ w !! k.
Proof.
  intros Hak Hsk.
  rewrite (run_frame_after_setup RegistryV1 json_Marshal (λ w, environ w !! k)) by done.
  unfold ecr.credentialSetup.
  apply (preserves_bind (λ w, environ w !! k)).
  { by apply preserves_createDockerConfig_variable. }
  intros [dockerConfig [e|]]; [apply preserves_ret|].
  destruct (json_Marshal dockerConfig) as [jsonBytes [e|]]; [apply preserves_ret|].
  by apply preserves_ioutil_WriteFile.
Qed.

Lemma createDockerConfig_config_or_error
    (dockerUsername dockerPassword accessKey secretKey registry : string)
    (noPush : bool) (w w' : World) (dockerConfig : option docker.Config) :
  createDockerConfig dockerUsername dockerPassword accessKey secretKey registry noPush w
    = (Val (dockerConfig, None), w') →
  is_Some dockerConfig.
Proof.
  intros H. destruct (setup_gate_cases noPush accessKey) as [(Hp & Hk & _)|[Hgate _]].
  - rewrite (createDockerConfig_skipped RegistryV1) in H by done. by simplify_eq.
  - destruct (decide (registry = "")) as [->|Hreg].
    { rewrite (createDockerConfig_no_registry RegistryV1) in H by done. discriminate H. }
    rewrite (createDockerConfig_setup RegistryV1) in H by done.
    destruct (_ && _); [|by simplify_eq].
    destruct (has_byte Ascii.zero accessKey); [discriminate H|].
    destruct (has_byte Ascii.zero secretKey); [discriminate H|]. by simplify_eq.
Qed.

Lemma credentialSetup_succeeded (c : ecr.Context) (w w1 : World) :
  credentialSetup c w = (Val None, w1) →
  ∃ dockerConfig jsonBytes,
    (createDockerConfig (ecr.docker_username c) (ecr.docker_password c)
       (ecr.access_key c) (ecr.secret_key c) (ecr.registry c) (ecr.no_push c) w).1
      = Val (Some dockerConfig, None)
    ∧ json_Marshal (Some dockerConfig) = (jsonBytes, None)
    ∧ files w1 = <[ecr.dockerConfigPath := jsonBytes]> (files w).
Proof.
  intros H. unfold ecr.credentialSetup in H. unfold bind at 1 in H.
  pose proof (preserves_createDockerConfig RegistryV1 files
                (ecr.docker_username c) (ecr.docker_password c) (ecr.access_key c)
                (ecr.secret_key c) (ecr.registry c) (ecr.no_push c)
                ltac:(by intros ? ?) w) as Hfiles.
  destruct (createDockerConfig _ _ _ _ _ _ w) as [[[dockerConfig [e|]]|msg] w0] eqn:E;
    simpl in *; [discriminate H| |discriminate H].
  destruct (createDockerConfig_config_or_error _ _ _ _ _ _ _ _ _ E) as [config ->].
  destruct (json_Marshal (Some config)) as [jsonBytes [e|]] eqn:J; [discriminate H|].
  exists config, jsonBytes. split; [done|]. split; [done|].
  unfold ioutil_WriteFile, bind, invoke in H. simpl in H.
  destruct (respond w0 (history w0) (WriteFile ecr.dockerConfigPath jsonBytes));
    [discriminate H|].
  injection H as <-. simpl. by rewrite Hfiles.
Qed.

(** When every step before the hand-over succeeded, the file system the
    plugin hands to the executor is the initial one with the credential
    document replaced: the document holds exactly the marshalled config
    that [createDockerConfig] returned, whatever it held before, and the
    plugin has touched no other file. *)
Theorem run_writes_credential_document (c : ecr.Context) (w w1 w2 w3 w4 : World) :
  credentialSetup c w = (Val None, w1) →
  ecr.repositoryEnsure c w1 = (Val None, w2) →
  ecr.lifecyclePolicyUpload c w2 = (Val tt, w3) →
  ecr.repositoryPolicyUpload c w3 = (Val tt, w4) →
  run c w = invoke (Exec (ecr.plugin_of c)) w4
  ∧ ∃ dockerConfig jsonBytes,
      (createDockerConfig (ecr.docker_username c) (ecr.docker_password c)
         (ecr.access_key c) (ecr.secret_key c) (ecr.registry c) (ecr.no_push c) w).1
        = Val (Some dockerConfig, None)
      ∧ json_Marshal (Some dockerConfig) = (jsonBytes, None)
      ∧ files w4 = <[ecr.dockerConfigPath := jsonBytes]> (files w).
Proof.
  intros H1 H2 H3 H4. split.
  - by rewrite run_steps, H1, H2, H3, H4.
  - destruct (credentialSetup_succeeded c w w1 H1) as (config & jsonBytes & ? & ? & Hdoc).
    exists config, jsonBytes. split; [done|]. split; [done|].
    pose proof (preserves_repositoryEnsure files files_call_blind c w1) as P2.
    pose proof (preserves_lifecyclePolicyUpload files files_call_blind c w2) as P3.
    pose proof (preserves_repositoryPolicyUpload files files_call_blind c w3) as P4.
    rewrite H2 in P2. rewrite H3 in P3. rewrite H4 in P4. simpl in *. congruence.
Qed.

Lemma ioutil_ReadFile_missing (path : string) (w : World) :
  files w !! path = None →
  ioutil_ReadFile path w = (Val ("", Some (PathError "open" path "ENOENT")), w).
Proof. intros H. unfold ioutil_ReadFile. by rewrite H. Qed.

Lemma ioutil_ReadFile_present (path contents : string) (w : World) :
  files w !! path = Some contents →
  ioutil_ReadFile path w = (Val (contents, None), w).
Proof. intros H. unfold ioutil_ReadFile. by rewrite H. Qed.

(** When the steps before it succeeded and a lifecycle policy is set, a
    policy file that cannot be read, or an upload of its content that
    returns an error, ends the process through [logrus.Fatal] instead of
    returning from [run]; the uploaded text is the content of the file. *)
Theorem run_lifecycle_policy_fatal (c : ecr.Context) (w w1 w2 : World) (path : string) :
  credentialSetup c w = (Val None, w1) →
  ecr.repositoryEnsure c w1 = (Val None, w2) →
  ecr.lifecycle_policy c = Some path →
  (files w2 !! path = None →
   run c w = (Fatal ("open " +:+ path +:+ ": ENOENT"), w2))
  ∧ (∀ contents e w3,
       files w2 !! path = Some contents →
       ecr.uploadLifeCyclePolicy (ecr.region c) (ecr.repo c) contents w2
         = (Val (Some e), w3) →
       run c w = (Fatal ("error uploading ECR lifecycle policy: " +:+ Error e), w3)).
Proof.
  intros Hsetup Hensure Hflag. split.
  - intros Hfile. rewrite run_steps, Hsetup, Hensure.
    unfold ecr.lifecyclePolicyUpload. rewrite Hflag. unfold bind.
    by rewrite ioutil_ReadFile_missing.
  - intros contents e w3 Hfile Hupload. rewrite run_steps, Hsetup, Hensure.
    unfold ecr.lifecyclePolicyUpload. rewrite Hflag. unfold bind.
    rewrite (ioutil_ReadFile_present _ contents) by done. by rewrite Hupload.
Qed.

(** The same for the repository policy, once the lifecycle step is
    passed; the message of the failed upload also reads "error uploading
    ECR lifecycle policy". *)
Theorem run_repository_policy_fatal
    (c : ecr.Context) (w w1 w2 w3 : World) (path : string) :
  credentialSetup c w = (Val None, w1) →
  ecr.repositoryEnsure c w1 = (Val None, w2) →
  ecr.lifecyclePolicyUpload c w2 = (Val tt, w3) →
  ecr.repository_policy c = Some path →
  (files w3 !! path = None →
   run c w = (Fatal ("open " +:+ path +:+ ": ENOENT"), w3))
  ∧ (∀ contents e w4,
       files w3 !! path = Some contents →
       ecr.uploadRepositoryPolicy (ecr.region c) (ecr.repo c) (ecr.registry c) contents w3
         = (Val (Some e), w4) →
       run c w = (Fatal ("error uploading ECR lifecycle policy: " +:+ Error e), w4)).
Proof.
  intros Hsetup Hensure Hlife Hflag. split.
  - intros Hfile. rewrite run_steps, Hsetup, Hensure, Hlife.
    unfold ecr.repositoryPolicyUpload. rewrite Hflag. unfold bind.
    by rewrite ioutil_ReadFile_missing.
  - intros contents e w4 Hfile Hupload. rewrite run_steps, Hsetup, Hensure, Hlife.
    unfold ecr.repositoryPolicyUpload. rewrite Hflag. unfold bind.
    rewrite (ioutil_ReadFile_present _ contents) by done. by rewrite Hupload.
Qed.

Section more_exit_status.
Variable godotenv_Load : string → M (option error).
Variable parse_args : World → cli.Invocation ecr.Context.

Local Abbreviation main := (ecr.main RegistryV1 json_Marshal godotenv_Load parse_args).



End more_exit_status.

End more_ecr_properties.

Lemma createDockerConfig_exports_keys_witness :
  ∃ c w',
    ecr.createDockerConfig sample.RegistryV1 "" "" "AKIAEXAMPLE" "wJalrEXAMPLEKEY"
      "123.dkr.ecr.us-east-1.amazonaws.com" true sample.stale_files = (Val (Some c, None), w')
    ∧ environ w' !! "AWS_ACCESS_KEY_ID" = Some "AKIAEXAMPLE"
    ∧ environ w' !! "AWS_SECRET_ACCESS_KEY" = Some "wJalrEXAMPLEKEY"
    ∧ environ w' !! "HOME" = Some "/root".
Proof.
  eexists _, _. split; [reflexivity|].
  rewrite (createDockerConfig_exports_keys sample.RegistryV1 "" "" "AKIAEXAMPLE"
             "wJalrEXAMPLEKEY" "123.dkr.ecr.us-east-1.amazonaws.com" true
             sample.stale_files _ _ eq_refl).
  repeat split; reflexivity.
Defined.

Lemma createDockerConfig_bound_hosts_witness :
  ∃ c w',
    ecr.createDockerConfig sample.RegistryV1 "octocat" "secret" "" ""
      "123.dkr.ecr.us-east-1.amazonaws.com" false sample.quiet = (Val (Some c, None), w')
    ∧ dom c = {[sample.RegistryV1; "public.ecr.aws"; "123.dkr.ecr.us-east-1.amazonaws.com"]}.
Proof.
  eexists _, _. split; [reflexivity|].
  rewrite (createDockerConfig_bound_hosts sample.RegistryV1 "octocat" "secret" "" ""
             "123.dkr.ecr.us-east-1.amazonaws.com" false sample.quiet _ _ eq_refl).
  vm_compute. reflexivity.
Defined.

Lemma createDockerConfig_export_fails_witness :
  (ecr.createDockerConfig sample.RegistryV1 "" "" "AKIAEXAMPLE"
     (String "k" (String Ascii.zero "")) "123.dkr.ecr.us-east-1.amazonaws.com" true
     sample.quiet).1
  = Val (None, Some (wrapped "failed to set AWS_SECRET_ACCESS_KEY environment variable"
                       (SyscallError "setenv" "EINVAL"))).
Proof.
  rewrite (proj2 (createDockerConfig_export_fails sample.RegistryV1 "" "" "AKIAEXAMPLE"
                    (String "k" (String Ascii.zero "")) "123.dkr.ecr.us-east-1.amazonaws.com"
                    true sample.quiet ltac:(discriminate) ltac:(discriminate)
                    ltac:(discriminate)) eq_refl eq_refl).
  reflexivity.
Defined.

Lemma run_without_registry_work_avoids_aws_witness :
  Forall (λ call, is_aws call = false)
    (calls_of (ecr.run sample.RegistryV1 sample.json_Marshal
                 (sample.ecr_flags "123.dkr.ecr.us-east-1.amazonaws.com" "app" ""
                    "AKIAEXAMPLE" "wJalrEXAMPLEKEY" true true None None))
       sample.quiet).
Proof.
  apply (run_without_registry_work_avoids_aws sample.RegistryV1 sample.json_Marshal
           (sample.ecr_flags "123.dkr.ecr.us-east-1.amazonaws.com" "app" ""
              "AKIAEXAMPLE" "wJalrEXAMPLEKEY" true true None None) sample.quiet);
    [left|..]; reflexivity.
Defined.

Lemma run_environment_frame_witness :
  environ (ecr.run sample.RegistryV1 sample.json_Marshal
             (sample.ecr_flags "123.dkr.ecr.us-east-1.amazonaws.com" "app" ""
                "AKIAEXAMPLE" "wJalrEXAMPLEKEY" false true None None)
             sample.stale_files).2 !! "HOME" = Some "/root".
Proof.
  rewrite (run_environment_frame sample.RegistryV1 sample.json_Marshal
             (sample.ecr_flags "123.dkr.ecr.us-east-1.amazonaws.com" "app" ""
                "AKIAEXAMPLE" "wJalrEXAMPLEKEY" false true None None)
             sample.stale_files "HOME" ltac:(discriminate) ltac:(discriminate)).
  reflexivity.
Defined.

Lemma run_lifecycle_policy_fatal_witness :
  (ecr.run sample.RegistryV1 sample.json_Marshal
     (sample.ecr_flags "123.dkr.ecr.us-east-1.amazonaws.com" "app" "" "" "" true false
        (Some "/drone/src/policy.json") None) sample.rejecting_policies).1
  = Fatal "error uploading ECR lifecycle policy: api error InvalidParameterException: invalid policy"
  ∧ (ecr.run sample.RegistryV1 sample.json_Marshal
       (sample.ecr_flags "123.dkr.ecr.us-east-1.amazonaws.com" "app" "" "" "" true false
          (Some "/drone/src/missing.json") None) sample.rejecting_policies).1
    = Fatal "open /drone/src/missing.json: ENOENT".
Proof.
  split.
  - rewrite (proj2 (run_lifecycle_policy_fatal sample.RegistryV1 sample.json_Marshal
                      (sample.ecr_flags "123.dkr.ecr.us-east-1.amazonaws.com" "app" ""
                         "" "" true false (Some "/drone/src/policy.json") None)
                      sample.rejecting_policies _ _ "/drone/src/policy.json"
                      eq_refl eq_refl eq_refl) "{}"
               (APIError "InvalidParameterException" "invalid policy") _ eq_refl eq_refl).
    reflexivity.
  - rewrite (proj1 (run_lifecycle_policy_fatal sample.RegistryV1 sample.json_Marshal
                      (sample.ecr_flags "123.dkr.ecr.us-east-1.amazonaws.com" "app" ""
                         "" "" true false (Some "/drone/src/missing.json") None)
                      sample.rejecting_policies _ _ "/drone/src/missing.json"
                      eq_refl eq_refl eq_refl) eq_refl).
    reflexivity.
Defined.

Lemma run_repository_policy_fatal_witness :
  (ecr.run sample.RegistryV1 sample.json_Marshal
     (sample.ecr_flags "public.ecr.aws/myorg" "app" "" "" "" true false
        None (Some "/drone/src/policy.json")) sample.rejecting_policies).1
  = Fatal "error uploading ECR lifecycle policy: api error InvalidParameterException: invalid policy".
Proof.
  rewrite (proj2 (run_repository_policy_fatal sample.RegistryV1 sample.json_Marshal
                    (sample.ecr_flags "public.ecr.aws/myorg" "app" "" "" "" true false
                       None (Some "/drone/src/policy.json"))
                    sample.rejecting_policies _ _ _ "/drone/src/policy.json"
                    eq_refl eq_refl eq_refl eq_refl) "{}"
             (APIError "InvalidParameterException" "invalid policy") _ eq_refl eq_refl).
  reflexivity.
Defined.

Lemma run_writes_credential_document_witness :
  let c := sample.ecr_flags "123.dkr.ecr.us-east-1.amazonaws.com" "app" "" "" ""
             false false None None in
  ∃ w4 jsonBytes,
    ecr.run sample.RegistryV1 sample.json_Marshal c sample.stale_files
      = invoke (Exec (ecr.plugin_of c)) w4
    ∧ files w4 = <[ecr.dockerConfigPath := jsonBytes]> (files sample.stale_files).
Proof.
  intros c.
  destruct (run_writes_credential_document sample.RegistryV1 sample.json_Marshal c
              sample.stale_files _ _ _ _ eq_refl eq_refl eq_refl eq_refl)
    as (Hrun & config & jsonBytes & _ & _ & Hfiles).
  eexists _, jsonBytes. split; [exact Hrun | exact Hfiles].
Defined.


(** A run over stale files: the credential document is replaced, the
    other files are kept, and the exit status is 0. *)
Example run_over_stale_files :
  let c := sample.ecr_flags "123.dkr.ecr.us-east-1.amazonaws.com" "app" "" "" ""
             false false None None in
  let w' := (ecr.run sample.RegistryV1 sample.json_Marshal c sample.stale_files).2 in
  files w' !! "/kaniko/.docker/config.json"
    = Some "123.dkr.ecr.us-east-1.amazonaws.com helper ecr-login; public.ecr.aws helper ecr-login"
  ∧ files w' !! "/drone/src/Dockerfile" = Some "FROM scratch"
  ∧ (ecr.main sample.RegistryV1 sample.json_Marshal sample.godotenv_Load
       (λ _, cli.Action c) sample.stale_files).1 = 0%Z.
Proof. vm_compute. done. Qed.

(** ** More on the GCR plugin *)

(** [setupGCRAuth] makes one call, the write of the key file, and
    returns no error exactly when that write succeeds.  Then
    GOOGLE_APPLICATION_CREDENTIALS names the key file and reading the
    file gives back the key as supplied; when the write fails the error
    comes back wrapped and the environment is as it was.  In both cases
    no other variable and no other file has changed. *)
Theorem setupGCRAuth_outcome (jsonKey : string) (w : World) :
  let r := gcr.setupGCRAuth jsonKey w in
  calls_of (gcr.setupGCRAuth jsonKey) w = [WriteFile gcr.gcrKeyPath jsonKey]
  ∧ (r.1 = Val None ↔ respond w (history w) (WriteFile gcr.gcrKeyPath jsonKey) = None)
  ∧ (∀ k, k ≠ "GOOGLE_APPLICATION_CREDENTIALS" → environ r.2 !! k = environ w !! k)
  ∧ (∀ path, path ≠ "/kaniko/config.json" → files r.2 !! path = files w !! path)
  ∧ (r.1 = Val None →
     environ r.2 !! "GOOGLE_APPLICATION_CREDENTIALS" = Some "/kaniko/config.json"
     ∧ (ioutil_ReadFile "/kaniko/config.json" r.2).1 = Val (jsonKey, None))
  ∧ (∀ e, respond w (history w) (WriteFile gcr.gcrKeyPath jsonKey) = Some e →
       r.1 = Val (Some (wrapped "failed to write GCR JSON key" e))
       ∧ environ r.2 = environ w).
Proof.
  intros r. subst r.
  destruct (respond w (history w) (WriteFile gcr.gcrKeyPath jsonKey)) as [e|] eqn:Hwrite.
  - rewrite (setupGCRAuth_not_written jsonKey w e Hwrite). simpl.
    split; [|split; [done|split; [done|split; [done|split; [done|]]]]].
    + apply calls_of_app. by rewrite (setupGCRAuth_not_written jsonKey w e Hwrite).
    + by intros e' [= <-].
  - rewrite (setupGCRAuth_written jsonKey w Hwrite). simpl.
    split; [|split; [done|split; [|split; [|split; [|done]]]]].
    + apply calls_of_app. by rewrite (setupGCRAuth_written jsonKey w Hwrite).
    + intros k Hk. by rewrite lookup_insert_ne.
    + intros path Hpath. by rewrite lookup_insert_ne.
    + intros _. split; [apply lookup_insert_eq|].
      unfold ioutil_ReadFile. simpl. unfold gcr.gcrKeyPath.
      by rewrite lookup_insert_eq.
Qed.

Lemma gcr_run_cases (c : gcr.Context) (w : World) :
  (gcr.json_key c = "" ∧
   gcr.run c w = (Val (respond w (history w) (Exec (gcr.plugin_of c))),
                  record_call (Exec (gcr.plugin_of c)) w))
  ∨ (gcr.json_key c ≠ "" ∧
     respond w (history w) (WriteFile gcr.gcrKeyPath (gcr.json_key c)) = None ∧
     gcr.run c w =
       (Val (respond w (history w ++ [WriteFile gcr.gcrKeyPath (gcr.json_key c)])
               (Exec (gcr.plugin_of c))),
        record_call (Exec (gcr.plugin_of c))
          (set_environ (insert gcr.gcrEnvVariable gcr.gcrKeyPath)
             (set_files (insert gcr.gcrKeyPath (gcr.json_key c))
                (record_call (WriteFile gcr.gcrKeyPath (gcr.json_key c)) w)))))
  ∨ (∃ e, gcr.json_key c ≠ "" ∧
     respond w (history w) (WriteFile gcr.gcrKeyPath (gcr.json_key c)) = Some e ∧
     gcr.run c w =
       (Val (Some (wrapped "failed to write GCR JSON key" e)),
        record_call (WriteFile gcr.gcrKeyPath (gcr.json_key c)) w)).
Proof.
  destruct (decide (gcr.json_key c = "")) as [Hkey|Hkey].
  { left. split; [done|]. by rewrite gcr_run_without_key. }
  right. rewrite gcr_run_with_key by done.
  destruct (respond w (history w) (WriteFile gcr.gcrKeyPath (gcr.json_key c)))
    as [e|] eqn:Hwrite.
  - right. exists e. by rewrite (setupGCRAuth_not_written _ _ e).
  - left. by rewrite setupGCRAuth_written.
Qed.

(** A run of the GCR plugin makes no call besides the write of a
    non-empty JSON key to the key file and the hand-over of the plugin
    descriptor built from the flags; it hands over at most once, and it
    does so exactly when the key is empty or its write succeeded. *)
Theorem gcr_run_delegates (c : gcr.Context) (w : World) :
  Forall (gcr_footprint c) (calls_of (gcr.run c) w)
  ∧ (executed (gcr.run c w).2 ≤ executed w + 1)%nat
  ∧ (executed (gcr.run c w).2 = executed w + 1 ↔
     gcr.json_key c = "" ∨
     respond w (history w) (WriteFile gcr.gcrKeyPath (gcr.json_key c)) = None).
Proof.
  destruct (gcr_run_cases c w) as [[Hkey E]|[(Hkey & Hwrite & E)|(e & Hkey & Hwrite & E)]].
  - split; [|split].
    + erewrite calls_of_app; [|by rewrite E]. by repeat constructor.
    + rewrite E. simpl. rewrite executed_record_call. simpl. lia.
    + rewrite E. simpl. rewrite executed_record_call. simpl. split; [by left|lia].
  - split; [|split].
    + erewrite calls_of_app; [|rewrite E; simpl; by rewrite <- app_assoc].
      by repeat constructor.
    + rewrite E. simpl. rewrite executed_record_call. simpl.
      change (executed (set_environ _ (set_files _ (record_call _ w))))
        with (executed (record_call (WriteFile gcr.gcrKeyPath (gcr.json_key c)) w)).
      rewrite executed_record_call. simpl. lia.
    + rewrite E. simpl. rewrite executed_record_call. simpl.
      change (executed (set_environ _ (set_files _ (record_call _ w))))
        with (executed (record_call (WriteFile gcr.gcrKeyPath (gcr.json_key c)) w)).
      rewrite executed_record_call. simpl. split; [by right|lia].
  - split; [|split].
    + erewrite calls_of_app; [|by rewrite E]. by repeat constructor.
    + rewrite E. simpl. rewrite executed_record_call. simpl. lia.
    + rewrite E. simpl. rewrite executed_record_call. simpl.
      split; [lia|]. intros [?|?]; congruence.
Qed.

Section gcr_exit_status.
Variable godotenv_Load : string → M (option error).
Variable parse_args : World → cli.Invocation gcr.Context.

Local Abbreviation main := (gcr.main godotenv_Load parse_args).



End gcr_exit_status.

